(** * react-dropzone: the [useDropzone] controller of [src/index.js]

    A shallow embedding of the hook's event handlers, its refs and its React
    state, with the theorems that settle the claims made about it.

    Conventions of the embedding.
    - DOM nodes are compared by identity in the source ([indexOf], [!==]);
      they are natural-number identifiers here.
    - The four refs of the hook ([nodeRef], [inputRef], [dragTargetsRef],
      [isFileDialogActiveRef]), [propsRef] and the React state live in one
      [World]; every handler is a computation in a state monad over it.
    - [setState] is always called with an updater function in the source.
      Updaters are applied in call order, so the embedding applies them at
      once and also records the call in the trace of the world.
    - A user callback is modelled by what the handlers can read back from
      it: its effect on the event object it receives (for instance a call
      of [preventDefault]); the call itself is recorded in the trace.
    - A promise continuation or a timer callback is recorded in the trace
      when it is registered and is run by a later action of the transition
      system, with the event object as it is at that moment.
    - The helpers imported from [./utils] are not part of [src/]; they are
      the fields of the interface [Utils]. *)

From stdpp Require Import gmap strings list.
From Stdlib Require Import ZArith Lia.

Local Open Scope Z_scope.

(** ** Data *)

(** A DOM node, by identity. *)
Abbreviation Node := nat.

(** A JavaScript number as far as the source needs it: the literal
    [Infinity] and finite values, which are byte counts. *)
Inductive Num :=
| Fin (z : Z)
| Infinity.

(** [a <= b] on numbers. *)
Definition Num_leb (a b : Num) : bool :=
  match a, b with
  | _, Infinity => true
  | Infinity, Fin _ => false
  | Fin x, Fin y => x <=? y
  end.

(** The browser's [File]: the handlers only pass files around. *)
Record File := mkFile {
  file_name : string;
  file_type : string;
  file_size : Z
}.

(** The [accept] prop: a string or an array of strings. *)
Inductive Accept :=
| AcceptString (s : string)
| AcceptArray (l : list string).

Record DataTransfer := mkDataTransfer {
  types : list string;
  dropEffect : string
}.

(** The (synthetic) event object.  It is mutable in the source:
    [preventDefault], [stopPropagation] and [persist] set a flag. *)
Record Evt := mkEvt {
  target : Node;
  dataTransfer : option DataTransfer;
  keyCode : Z;
  defaultPrevented : bool;
  propagationStopped : bool;
  persisted : bool
}.

Definition preventDefault (evt : Evt) : Evt :=
  {| target := target evt; dataTransfer := dataTransfer evt;
     keyCode := keyCode evt; defaultPrevented := true;
     propagationStopped := propagationStopped evt;
     persisted := persisted evt |}.

Definition stopPropagation (evt : Evt) : Evt :=
  {| target := target evt; dataTransfer := dataTransfer evt;
     keyCode := keyCode evt; defaultPrevented := defaultPrevented evt;
     propagationStopped := true;
     persisted := persisted evt |}.

Definition persist (evt : Evt) : Evt :=
  {| target := target evt; dataTransfer := dataTransfer evt;
     keyCode := keyCode evt; defaultPrevented := defaultPrevented evt;
     propagationStopped := propagationStopped evt;
     persisted := true |}.

(** [if (evt.dataTransfer) evt.dataTransfer.dropEffect = 'copy'] *)
Definition setDropEffectCopy (evt : Evt) : Evt :=
  match dataTransfer evt with
  | Some dt =>
      {| target := target evt;
         dataTransfer := Some {| types := types dt; dropEffect := "copy" |};
         keyCode := keyCode evt; defaultPrevented := defaultPrevented evt;
         propagationStopped := propagationStopped evt;
         persisted := persisted evt |}
  | None => evt
  end.

(** A user callback that receives the event. *)
Definition UserFn := Evt -> Evt.

(** The hidden file input: the two properties the hook touches. *)
Record InputEl := mkInputEl {
  value : string;
  files : list File
}.

(** The props of the component, as [Dropzone.propTypes] declares them.
    A prop that is not given is [None].  A callback prop is given by what
    it does to the event it receives. *)
Record Props := mkProps {
  p_accept : option Accept;
  p_disabled : option bool;
  p_preventDropOnDocument : option bool;
  p_multiple : option bool;
  p_name : option string;
  p_maxSize : option Num;
  p_minSize : option Num;
  p_getDataTransferItems : option unit;
  p_onClick : option UserFn;
  p_onFocus : option UserFn;
  p_onBlur : option UserFn;
  p_onKeyDown : option UserFn;
  p_onDrop : option UserFn;
  p_onDropAccepted : option UserFn;
  p_onDropRejected : option UserFn;
  p_onDragStart : option UserFn;
  p_onDragEnter : option UserFn;
  p_onDragOver : option UserFn;
  p_onDragLeave : option UserFn;
  p_onFileDialogCancel : option unit
}.

(** [createInitialState] *)
Record State := mkState {
  draggedFiles : list File;
  acceptedFiles : list File;
  rejectedFiles : list File;
  isDragActive : bool;
  isFocused : bool
}.

Definition createInitialState : State :=
  {| draggedFiles := []; acceptedFiles := []; rejectedFiles := [];
     isDragActive := false; isFocused := false |}.

(** The updater functions handed to [setState], one constructor for each
    arrow function of the source. *)
Inductive Updater :=
| UDragEntered (dragged : list File)
| UDragCleared
| UDropped (accepted rejected : list File)
| UFocused (b : bool).

Definition runUpdater (u : Updater) (state : State) : State :=
  match u with
  | UDragEntered dragged =>
      {| draggedFiles := dragged; acceptedFiles := acceptedFiles state;
         rejectedFiles := rejectedFiles state; isDragActive := true;
         isFocused := isFocused state |}
  | UDragCleared =>
      {| draggedFiles := []; acceptedFiles := acceptedFiles state;
         rejectedFiles := rejectedFiles state; isDragActive := false;
         isFocused := isFocused state |}
  | UDropped accepted rejected =>
      {| draggedFiles := draggedFiles state; acceptedFiles := accepted;
         rejectedFiles := rejected; isDragActive := isDragActive state;
         isFocused := isFocused state |}
  | UFocused b =>
      {| draggedFiles := draggedFiles state;
         acceptedFiles := acceptedFiles state;
         rejectedFiles := rejectedFiles state;
         isDragActive := isDragActive state; isFocused := b |}
  end.

(** The props whose callbacks receive the event only. *)
Inductive EvtProp :=
| OnClick | OnFocus | OnBlur | OnKeyDown
| OnDragStart | OnDragEnter | OnDragOver | OnDragLeave.

(** Closures registered for later: promise continuations and timers. *)
Inductive Pending :=
| DragEnterThen (evt : Evt)
| DropThen (captured : Props) (evt : Evt)
| OpenTimer
| FileDialogCancelTimer (captured : Props).

(** What a handler does to the outside, in program order. *)
Inductive Effect :=
| SetState (u : Updater)
| CallProp (c : EvtProp) (evt : Evt)
| CallOnDrop (accepted rejected : list File) (evt : Evt)
| CallOnDropRejected (rejected : list File) (evt : Evt)
| CallOnDropAccepted (accepted : list File) (evt : Evt)
| CallOnFileDialogCancel
| PromiseThen (custom : bool) (k : Pending)
| SetTimeout (k : Pending) (ms : Z)
| InputClick.

Record World := mkWorld {
  state : State;
  propsRef : Props;
  nodeRef : option Node;
  inputRef : option InputEl;
  dragTargetsRef : list Node;
  isFileDialogActiveRef : bool;
  trace : list Effect
}.

(** ** The state monad of the handlers *)

Definition M (A : Type) : Type := World -> A * World.

Definition ret {A} (a : A) : M A := fun w => (a, w).

Definition bind {A B} (m : M A) (k : A -> M B) : M B :=
  fun w => let (a, w') := m w in k a w'.

Notation "x <~ m ;; k" := (bind m (fun x => k))
  (at level 100, m at next level, right associativity).
Notation "m ;;; k" := (bind m (fun _ => k))
  (at level 100, right associativity).

Definition exec {A} (m : M A) (w : World) : World := snd (m w).
Definition eval {A} (m : M A) (w : World) : A := fst (m w).

Definition emit (e : Effect) : M unit := fun w =>
  (tt, {| state := state w; propsRef := propsRef w; nodeRef := nodeRef w;
          inputRef := inputRef w; dragTargetsRef := dragTargetsRef w;
          isFileDialogActiveRef := isFileDialogActiveRef w;
          trace := trace w ++ [e] |}).

Definition setState (u : Updater) : M unit := fun w =>
  (tt, {| state := runUpdater u (state w); propsRef := propsRef w;
          nodeRef := nodeRef w; inputRef := inputRef w;
          dragTargetsRef := dragTargetsRef w;
          isFileDialogActiveRef := isFileDialogActiveRef w;
          trace := trace w ++ [SetState u] |}).

Definition getProps : M Props := fun w => (propsRef w, w).
Definition getNodeRef : M (option Node) := fun w => (nodeRef w, w).
Definition getInputRef : M (option InputEl) := fun w => (inputRef w, w).
Definition getDragTargets : M (list Node) := fun w => (dragTargetsRef w, w).
Definition getFileDialogActive : M bool :=
  fun w => (isFileDialogActiveRef w, w).

Definition setDragTargets (l : list Node) : M unit := fun w =>
  (tt, {| state := state w; propsRef := propsRef w; nodeRef := nodeRef w;
          inputRef := inputRef w; dragTargetsRef := l;
          isFileDialogActiveRef := isFileDialogActiveRef w;
          trace := trace w |}).

Definition setFileDialogActive (b : bool) : M unit := fun w =>
  (tt, {| state := state w; propsRef := propsRef w; nodeRef := nodeRef w;
          inputRef := inputRef w; dragTargetsRef := dragTargetsRef w;
          isFileDialogActiveRef := b; trace := trace w |}).

Definition setInputRef (i : option InputEl) : M unit := fun w =>
  (tt, {| state := state w; propsRef := propsRef w; nodeRef := nodeRef w;
          inputRef := i; dragTargetsRef := dragTargetsRef w;
          isFileDialogActiveRef := isFileDialogActiveRef w;
          trace := trace w |}).

(** [if (f) f(evt)]: the call is recorded, the event comes back as the
    callback left it. *)
Definition callProp (c : EvtProp) (f : option UserFn) (evt : Evt) : M Evt :=
  match f with
  | Some g => emit (CallProp c evt) ;;; ret (g evt)
  | None => ret evt
  end.

(** ** What the hook imports *)

(** The methods of the memoised [inst] object. *)
Inductive InstMethod :=
| InstOnDocumentDrop | InstOnDragStart | InstOnDragEnter | InstOnDragOver
| InstOnDragLeave | InstOnDrop | InstOnClick | InstOnInputElementClick
| InstOnFileDialogCancel | InstOnFocus | InstOnBlur | InstOnKeyDown.

Inductive RefName := NodeRef | InputRef.

(** The JavaScript values that occur in the argument and in the result of
    [getRootProps]. *)
Inductive Value :=
| VUndefined
| VNull
| VBool (b : bool)
| VNum (z : Z)
| VStr (s : string)
| VRef (r : RefName)
| VInst (m : InstMethod)
| VFun (id : nat)
| VComposed (f g : Value).

(** JavaScript truthiness, as [c ? a : b] tests it. *)
Definition truthy (v : Value) : bool :=
  match v with
  | VUndefined | VNull => false
  | VBool b => b
  | VNum z => negb (z =? 0)
  | VStr s => negb (String.eqb s "")
  | VRef _ | VInst _ | VFun _ | VComposed _ _ => true
  end.

(** The helpers imported from [./utils].  That module is not among the
    sources, so the handlers are written against this interface and the
    theorems hold for every implementation of it.  [isIeOrEdge] stands
    for the result of the call [isIeOrEdge()]. *)
Class Utils := {
  isDragDataWithFiles : Evt -> bool;
  fileAccepted : File -> option Accept -> bool;
  allFilesAccepted : list File -> option Accept -> bool;
  fileMatchSize : File -> Num -> Num -> bool;
  isIeOrEdge : bool;
  composeEventHandlers : Value -> Value -> Value;
  isPropagationStopped : Evt -> bool;
  isDefaultPrevented : Evt -> bool
}.

(** The two DOM queries the handlers make on the root node. *)
Class Dom := {
  contains : Node -> Node -> bool;
  isEqualNode : Node -> Node -> bool
}.

(** [Array.prototype.indexOf] with strict equality: the first index of
    [x], or [-1]. *)
Fixpoint indexOf_from (i : Z) (l : list Node) (x : Node) : Z :=
  match l with
  | [] => -1
  | y :: l' => if Nat.eqb y x then i else indexOf_from (i + 1) l' x
  end.

Definition indexOf (l : list Node) (x : Node) : Z := indexOf_from 0 l x.

(** A default value of a destructuring pattern: [{ multiple = true }]. *)
Definition withDefault {A} (d : A) (o : option A) : A :=
  match o with
  | Some a => a
  | None => d
  end.

Definition given {A} (o : option A) : bool :=
  match o with
  | Some _ => true
  | None => false
  end.

(** ** The handlers of [inst] *)

Section Handlers.

Context {U : Utils} {D : Dom}.

(** [open] *)
Definition open : M unit :=
  setFileDialogActive true ;;;
  i <~ getInputRef ;;
  match i with
  | Some el =>
      setInputRef (Some {| value := ""; files := files el |}) ;;;
      emit InputClick
  | None => ret tt
  end.

(** [nodeRef.current != null && nodeRef.current.contains(el)] *)
Definition nodeContains (n : option Node) (el : Node) : bool :=
  match n with
  | Some node => contains node el
  | None => false
  end.

Definition onDocumentDrop (evt : Evt) : M Evt :=
  n <~ getNodeRef ;;
  if nodeContains n (target evt) then ret evt
  else
    let evt := preventDefault evt in
    setDragTargets [] ;;;
    ret evt.

Definition onDragStart (evt : Evt) : M Evt :=
  let evt := persist evt in
  p <~ getProps ;;
  if given (p_onDragStart p) && isDragDataWithFiles evt
  then callProp OnDragStart (p_onDragStart p) evt
  else ret evt.

(** The continuation of the promise made in [onDragEnter]. *)
Definition onDragEnter_then (evt : Evt) (dragged : list File) : M unit :=
  if isPropagationStopped evt then ret tt
  else setState (UDragEntered dragged).

Definition onDragEnter (evt : Evt) : M Evt :=
  let evt := preventDefault evt in
  ts <~ getDragTargets ;;
  (if indexOf ts (target evt) =? -1
   then setDragTargets (ts ++ [target evt])
   else ret tt) ;;;
  let evt := persist evt in
  if isDragDataWithFiles evt then
    p <~ getProps ;;
    emit (PromiseThen (given (p_getDataTransferItems p))
                      (DragEnterThen evt)) ;;;
    callProp OnDragEnter (p_onDragEnter p) evt
  else ret evt.

(** The source returns [false] here; no caller in the hook reads it. *)
Definition onDragOver (evt : Evt) : M Evt :=
  let evt := preventDefault evt in
  let evt := persist evt in
  let evt := setDropEffectCopy evt in
  p <~ getProps ;;
  if given (p_onDragOver p) && isDragDataWithFiles evt
  then callProp OnDragOver (p_onDragOver p) evt
  else ret evt.

(** The callback of the [filter] in [onDragLeave]. *)
Definition keepTarget (n : option Node) (evt : Evt) (el : Node) : bool :=
  negb (Nat.eqb el (target evt)) && nodeContains n el.

Definition onDragLeave (evt : Evt) : M Evt :=
  let evt := preventDefault evt in
  let evt := persist evt in
  ts <~ getDragTargets ;;
  n <~ getNodeRef ;;
  let ts' := List.filter (keepTarget n evt) ts in
  setDragTargets ts' ;;;
  if (0 <? Z.of_nat (length ts')) then ret evt
  else
    setState UDragCleared ;;;
    p <~ getProps ;;
    if given (p_onDragLeave p) && isDragDataWithFiles evt
    then callProp OnDragLeave (p_onDragLeave p) evt
    else ret evt.

(** The test of the [forEach] in the continuation of [onDrop]; [accept]
    was read when the handler ran, the size bounds are read from
    [propsRef.current] when the promise resolves. *)
Definition fileOk (accept : option Accept) (current : Props) (file : File)
  : bool :=
  fileAccepted file accept &&
  fileMatchSize file
    (match p_maxSize current with None => Infinity | Some m => m end)
    (match p_minSize current with None => Fin 0 | Some m => m end).

(** One round of the [forEach]: [push] on one of the two arrays. *)
Definition classifyStep (accept : option Accept) (current : Props)
    (lists : list File * list File) (file : File) : list File * list File :=
  let (accepted, rejected) := lists in
  if fileOk accept current file
  then (accepted ++ [file], rejected)
  else (accepted, rejected ++ [file]).

Definition classify (accept : option Accept) (current : Props)
    (fileList : list File) : list File * list File :=
  fold_left (classifyStep accept current) fileList ([], []).

(** [if (!multiple && acceptedFiles.length > 1)
       rejectedFiles.push(...acceptedFiles.splice(0))] *)
Definition singleModeCheck (multiple : bool)
    (lists : list File * list File) : list File * list File :=
  let (accepted, rejected) := lists in
  if negb multiple && (1 <? Z.of_nat (length accepted))
  then ([], rejected ++ accepted)
  else (accepted, rejected).

(** The two arrays as they are when [setState] is reached. *)
Definition dropLists (captured current : Props) (fileList : list File)
  : list File * list File :=
  singleModeCheck (withDefault true (p_multiple captured))
    (classify (p_accept captured) current fileList).

Definition when (b : bool) (m : M unit) : M unit :=
  if b then m else ret tt.

(** The continuation of the promise made in [onDrop]. *)
Definition onDrop_then (captured : Props) (evt : Evt)
    (fileList : list File) : M unit :=
  if isPropagationStopped evt then ret tt
  else
    current <~ getProps ;;
    let (accepted, rejected) := dropLists captured current fileList in
    setState (UDropped accepted rejected) ;;;
    when (given (p_onDrop captured))
         (emit (CallOnDrop accepted rejected evt)) ;;;
    when ((0 <? Z.of_nat (length rejected))
          && given (p_onDropRejected captured))
         (emit (CallOnDropRejected rejected evt)) ;;;
    when ((0 <? Z.of_nat (length accepted))
          && given (p_onDropAccepted captured))
         (emit (CallOnDropAccepted accepted evt)).

Definition onDrop (evt : Evt) : M Evt :=
  captured <~ getProps ;;
  let evt := preventDefault evt in
  let evt := persist evt in
  setDragTargets [] ;;;
  setFileDialogActive false ;;;
  setState UDragCleared ;;;
  if isDragDataWithFiles evt then
    emit (PromiseThen (given (p_getDataTransferItems captured))
                      (DropThen captured evt)) ;;;
    ret evt
  else ret evt.

Definition onClick (evt : Evt) : M Evt :=
  p <~ getProps ;;
  evt <~ callProp OnClick (p_onClick p) evt ;;
  if negb (isDefaultPrevented evt) then
    let evt := stopPropagation evt in
    if isIeOrEdge
    then emit (SetTimeout OpenTimer 0) ;;; ret evt
    else open ;;; ret evt
  else ret evt.

Definition onInputElementClick (evt : Evt) : M Evt :=
  ret (stopPropagation evt).

(** The timer callback of [onFileDialogCancel]. *)
Definition onFileDialogCancel_timeout (captured : Props) : M unit :=
  i <~ getInputRef ;;
  match i with
  | Some el =>
      if Z.of_nat (length (files el)) =? 0 then
        setFileDialogActive false ;;;
        when (given (p_onFileDialogCancel captured))
             (emit CallOnFileDialogCancel)
      else ret tt
  | None => ret tt
  end.

Definition onFileDialogCancel : M unit :=
  captured <~ getProps ;;
  active <~ getFileDialogActive ;;
  when active (emit (SetTimeout (FileDialogCancelTimer captured) 300)).

Definition onFocus (evt : Evt) : M Evt :=
  p <~ getProps ;;
  evt <~ callProp OnFocus (p_onFocus p) evt ;;
  if negb (isDefaultPrevented evt)
  then setState (UFocused true) ;;; ret evt
  else ret evt.

Definition onBlur (evt : Evt) : M Evt :=
  p <~ getProps ;;
  evt <~ callProp OnBlur (p_onBlur p) evt ;;
  if negb (isDefaultPrevented evt)
  then setState (UFocused false) ;;; ret evt
  else ret evt.

Definition onKeyDown (evt : Evt) : M Evt :=
  p <~ getProps ;;
  n <~ getNodeRef ;;
  if match n with
     | None => true
     | Some node => negb (isEqualNode node (target evt))
     end
  then ret evt
  else
    evt <~ callProp OnKeyDown (p_onKeyDown p) evt ;;
    if negb (isDefaultPrevented evt)
       && ((keyCode evt =? 32) || (keyCode evt =? 13))
    then
      let evt := preventDefault evt in
      open ;;; ret evt
    else ret evt.

End Handlers.

(** ** [getRootProps] and the value the hook returns *)

(** The JavaScript runtime turns a computed property key that is not a
    string into one; only [getRootProps] with an unusual [refKey] gets
    there. *)
Class Runtime := {
  toPropertyKey : Value -> string
}.

Section Hook.

Context {U : Utils} {R : Runtime}.

(** Reading a property of an object: [undefined] when it is absent. *)
Definition prop (o : gmap string Value) (k : string) : Value :=
  match o !! k with
  | Some v => v
  | None => VUndefined
  end.

Definition computedKey (v : Value) : string :=
  match v with
  | VStr s => s
  | _ => toPropertyKey v
  end.

(** The nine handler props that [getRootProps] takes out of its argument
    and puts into its result. *)
Definition rootHandlers : list (string * InstMethod) :=
  [("onKeyDown", InstOnKeyDown); ("onFocus", InstOnFocus);
   ("onBlur", InstOnBlur); ("onClick", InstOnClick);
   ("onDragStart", InstOnDragStart); ("onDragEnter", InstOnDragEnter);
   ("onDragOver", InstOnDragOver); ("onDragLeave", InstOnDragLeave);
   ("onDrop", InstOnDrop)].

(** [composeHandler]; [current] is [propsRef.current]. *)
Definition composeHandler (current : Props) (handler : Value) : Value :=
  if withDefault false (p_disabled current) then VNull else handler.

(** [composeHandler(h ? composeEventHandlers(h, inst.h) : inst.h)] *)
Definition rootHandler (current : Props) (args : gmap string Value)
    (key : string) (m : InstMethod) : Value :=
  let user := prop args key in
  composeHandler current
    (if truthy user then composeEventHandlers user (VInst m)
     else VInst m).

(** The [...rest] of the destructuring pattern of [getRootProps]. *)
Definition restOf (args : gmap string Value) : gmap string Value :=
  foldr (fun k o => delete k o) args
        ("refKey" :: map fst rootHandlers).

(** [getRootProps]: the object literal is built property by property, a
    later property with the same key replaces an earlier one, and the
    spread of [rest] comes last. *)
Definition getRootProps (current : Props) (args : gmap string Value)
  : gmap string Value :=
  let refKey :=
    match prop args "refKey" with
    | VUndefined => VStr "ref"
    | v => v
    end in
  let rest := restOf args in
  let o : gmap string Value := ∅ in
  let o := <["onKeyDown" := rootHandler current args "onKeyDown" InstOnKeyDown]> o in
  let o := <["onFocus" := rootHandler current args "onFocus" InstOnFocus]> o in
  let o := <["onBlur" := rootHandler current args "onBlur" InstOnBlur]> o in
  let o := <["onClick" := rootHandler current args "onClick" InstOnClick]> o in
  let o := <["onDragStart" := rootHandler current args "onDragStart" InstOnDragStart]> o in
  let o := <["onDragEnter" := rootHandler current args "onDragEnter" InstOnDragEnter]> o in
  let o := <["onDragOver" := rootHandler current args "onDragOver" InstOnDragOver]> o in
  let o := <["onDragLeave" := rootHandler current args "onDragLeave" InstOnDragLeave]> o in
  let o := <["onDrop" := rootHandler current args "onDrop" InstOnDrop]> o in
  let o := <[computedKey refKey := VRef NodeRef]> o in
  let o := <["tabIndex" :=
               VNum (if withDefault false (p_disabled current)
                     then -1 else 0)]> o in
  rest ∪ o.

(** The data fields of the object [useDropzone] returns; its three
    function fields are [getRootProps], [getInputProps] and [open].
    [getInputProps] does not touch the refs or the state and is left
    out of the embedding. *)
Record DropzoneResult := mkDropzoneResult {
  r_isDragActive : bool;
  r_isDragAccept : bool;
  r_isDragReject : bool;
  r_draggedFiles : list File;
  r_acceptedFiles : list File;
  r_rejectedFiles : list File;
  r_isFocused : bool
}.

(** The last lines of [useDropzone]. *)
Definition useDropzone (props : Props) (st : State) : DropzoneResult :=
  let accept := p_accept props in
  let multiple := withDefault true (p_multiple props) in
  let disabled := withDefault false (p_disabled props) in
  let filesCount := Z.of_nat (length (draggedFiles st)) in
  let isMultipleAllowed := multiple || (filesCount <=? 1) in
  let isDragAccept :=
    (0 <? filesCount) && allFilesAccepted (draggedFiles st) accept in
  let isDragReject :=
    (0 <? filesCount) && (negb isDragAccept || negb isMultipleAllowed) in
  {| r_isDragActive := isDragActive st;
     r_isDragAccept := isDragAccept;
     r_isDragReject := isDragReject;
     r_draggedFiles := draggedFiles st;
     r_acceptedFiles := acceptedFiles st;
     r_rejectedFiles := rejectedFiles st;
     r_isFocused := isFocused st && negb disabled |}.

End Hook.

(** The listeners the mount effect installs. *)
Inductive ListenerTarget := OnDocument | OnWindow.

Inductive ListenerFn :=
| UtilsOnDocumentDragOver
| OfInst (m : InstMethod).

Record Listener := mkListener {
  l_target : ListenerTarget;
  l_type : string;
  l_fn : ListenerFn
}.

(** The body of the [useEffect]: [props] are those of the first render. *)
Definition mountListeners (props : Props) : list Listener :=
  let preventDropOnDocument :=
    withDefault true (p_preventDropOnDocument props) in
  (if preventDropOnDocument
   then [mkListener OnDocument "dragover" UtilsOnDocumentDragOver;
         mkListener OnDocument "drop" (OfInst InstOnDocumentDrop)]
   else [])
  ++ [mkListener OnWindow "focus" (OfInst InstOnFileDialogCancel)].

(** ** The controller as a transition system *)

(** Everything that can happen to a mounted hook.  The DOM may differ
    from one action to the next, so every action comes with its own
    [Dom].  A continuation or a timer runs with the event as it is by
    then and with the value the promise resolved to. *)
Inductive Action :=
| Render (props : Props)
| AttachNode (n : option Node)
| AttachInput (i : option InputEl)
| DocumentDrop (evt : Evt)
| DragStart (evt : Evt)
| DragEnter (evt : Evt)
| DragEnterResolved (evt : Evt) (dragged : list File)
| DragOver (evt : Evt)
| DragLeave (evt : Evt)
| Drop (evt : Evt)
| DropResolved (captured : Props) (evt : Evt) (fileList : list File)
| Click (evt : Evt)
| InputElementClick (evt : Evt)
| WindowFocus
| FileDialogCancelTimeout (captured : Props)
| OpenTimeout
| CallOpen
| Focus (evt : Evt)
| Blur (evt : Evt)
| KeyDown (evt : Evt).

Definition setPropsRef (p : Props) (w : World) : World :=
  {| state := state w; propsRef := p; nodeRef := nodeRef w;
     inputRef := inputRef w; dragTargetsRef := dragTargetsRef w;
     isFileDialogActiveRef := isFileDialogActiveRef w; trace := trace w |}.

Definition setNodeRef (n : option Node) (w : World) : World :=
  {| state := state w; propsRef := propsRef w; nodeRef := n;
     inputRef := inputRef w; dragTargetsRef := dragTargetsRef w;
     isFileDialogActiveRef := isFileDialogActiveRef w; trace := trace w |}.

Definition step {U : Utils} (D : Dom) (a : Action) (w : World) : World :=
  match a with
  | Render props => setPropsRef props w
  | AttachNode n => setNodeRef n w
  | AttachInput i => exec (setInputRef i) w
  | DocumentDrop evt => exec (onDocumentDrop evt) w
  | DragStart evt => exec (onDragStart evt) w
  | DragEnter evt => exec (onDragEnter evt) w
  | DragEnterResolved evt dragged => exec (onDragEnter_then evt dragged) w
  | DragOver evt => exec (onDragOver evt) w
  | DragLeave evt => exec (onDragLeave evt) w
  | Drop evt => exec (onDrop evt) w
  | DropResolved captured evt fileList =>
      exec (onDrop_then captured evt fileList) w
  | Click evt => exec (onClick evt) w
  | InputElementClick evt => exec (onInputElementClick evt) w
  | WindowFocus => exec onFileDialogCancel w
  | FileDialogCancelTimeout captured =>
      exec (onFileDialogCancel_timeout captured) w
  | OpenTimeout => exec open w
  | CallOpen => exec open w
  | Focus evt => exec (onFocus evt) w
  | Blur evt => exec (onBlur evt) w
  | KeyDown evt => exec (onKeyDown evt) w
  end.

(** The world of the first render: [useRef] and [useState] initial
    values. *)
Definition initialWorld (props : Props) : World :=
  {| state := createInitialState; propsRef := props; nodeRef := None;
     inputRef := None; dragTargetsRef := []; isFileDialogActiveRef := false;
     trace := [] |}.

Inductive reachable {U : Utils} : World -> Prop :=
| reachable_init props : reachable (initialWorld props)
| reachable_step D a w : reachable w -> reachable (step D a w).

(** ** [getInputProps] *)

(** The values of the object [getInputProps] returns: the values of
    [getRootProps], the [accept] prop handed on as it is, and the style
    object of the hidden input. *)
Inductive InputValue :=
| IValue (v : Value)
| IAccept (a : Accept)
| IStyle (declarations : list (string * string)).

Section InputProps.

Context {U : Utils} {R : Runtime}.

(** [supportMultiple] is a constant of [./utils]: whether the input
    elements of the browser know the [multiple] attribute. *)
Variable supportMultiple : bool.

(** The [...rest] of the destructuring pattern of [getInputProps]. *)
Definition inputRestOf (args : gmap string Value) : gmap string Value :=
  foldr (fun k o => delete k o) args ["refKey"; "onChange"; "onClick"].

(** [getInputProps]: [inputProps] is built property by property, [name]
    is assigned afterwards when it is a non-empty string, and the spread
    of [rest] comes last. *)
Definition getInputProps (current : Props) (args : gmap string Value)
  : gmap string InputValue :=
  let refKey :=
    match prop args "refKey" with
    | VUndefined => VStr "ref"
    | v => v
    end in
  let onChange := prop args "onChange" in
  let onClick := prop args "onClick" in
  let rest := inputRestOf args in
  let accept := p_accept current in
  let multiple := withDefault true (p_multiple current) in
  let name := p_name current in
  let inputProps : gmap string InputValue := ∅ in
  let inputProps :=
    <["accept" := match accept with
                  | Some a => IAccept a
                  | None => IValue VUndefined
                  end]> inputProps in
  let inputProps := <["type" := IValue (VStr "file")]> inputProps in
  let inputProps := <["style" := IStyle [("display", "none")]]> inputProps in
  let inputProps :=
    <["multiple" := IValue (VBool (supportMultiple && multiple))]>
      inputProps in
  let inputProps :=
    <["onChange" :=
        IValue (composeEventHandlers onChange (VInst InstOnDrop))]>
      inputProps in
  let inputProps :=
    <["onClick" :=
        IValue (composeEventHandlers onClick
                                     (VInst InstOnInputElementClick))]>
      inputProps in
  let inputProps := <["autoComplete" := IValue (VStr "off")]> inputProps in
  let inputProps := <["tabIndex" := IValue (VNum (-1))]> inputProps in
  let inputProps :=
    <[computedKey refKey := IValue (VRef InputRef)]> inputProps in
  let inputProps :=
    match name with
    | Some s =>
        if negb (Z.of_nat (String.length s) =? 0)
        then <["name" := IValue (VStr s)]> inputProps
        else inputProps
    | None => inputProps
    end in
  (IValue <$> rest) ∪ inputProps.

End InputProps.

(** ** The listeners of the mount effect *)

#[global] Instance InstMethod_eq_dec : EqDecision InstMethod.
Proof. solve_decision. Defined.

#[global] Instance ListenerTarget_eq_dec : EqDecision ListenerTarget.
Proof. solve_decision. Defined.

#[global] Instance ListenerFn_eq_dec : EqDecision ListenerFn.
Proof. solve_decision. Defined.

#[global] Instance Listener_eq_dec : EqDecision Listener.
Proof. solve_decision. Defined.

(** The listeners registered on [document] and [window].  The platform
    registers a listener once: adding one that is already there changes
    nothing, and removing takes out the one with the same target, type
    and function.  Every call in the source uses the bubbling phase, so
    the capture flag is left out. *)
Definition addEventListener (l : Listener) (registered : list Listener)
  : list Listener :=
  if bool_decide (l ∈ registered) then registered else registered ++ [l].

Definition removeEventListener (l : Listener) (registered : list Listener)
  : list Listener :=
  List.filter (fun l' => negb (bool_decide (l' = l))) registered.

(** The body of the effect run on a set of registered listeners. *)
Definition effectMount (props : Props) (registered : list Listener)
  : list Listener :=
  fold_left (fun reg l => addEventListener l reg) (mountListeners props)
            registered.

(** The function the effect returns; [props] is the same closure value
    as in the body. *)
Definition effectCleanup (props : Props) (registered : list Listener)
  : list Listener :=
  let preventDropOnDocument :=
    withDefault true (p_preventDropOnDocument props) in
  let registered :=
    if preventDropOnDocument then
      removeEventListener
        (mkListener OnDocument "drop" (OfInst InstOnDocumentDrop))
        (removeEventListener
           (mkListener OnDocument "dragover" UtilsOnDocumentDragOver)
           registered)
    else registered in
  removeEventListener
    (mkListener OnWindow "focus" (OfInst InstOnFileDialogCancel))
    registered.

(** ** A sample environment

    One implementation of each interface, to run the handlers on concrete
    inputs.  The helpers follow their names: drag data has files when
    there is no [dataTransfer] or one of its types is ["Files"], a file is
    accepted when no [accept] is given or its type is listed, and a size
    matches when it lies between the two bounds. *)

Definition sampleFileAccepted (file : File) (accept : option Accept) : bool :=
  match accept with
  | None => true
  | Some (AcceptString s) => String.eqb (file_type file) s
  | Some (AcceptArray l) => existsb (String.eqb (file_type file)) l
  end.

Definition sampleFileMatchSize (file : File) (maxSize minSize : Num) : bool :=
  Num_leb (Fin (file_size file)) maxSize
  && Num_leb minSize (Fin (file_size file)).

Definition sampleUtils (ieOrEdge : bool) : Utils :=
  {| isDragDataWithFiles evt :=
       match dataTransfer evt with
       | None => true
       | Some dt => existsb (String.eqb "Files") (types dt)
       end;
     fileAccepted := sampleFileAccepted;
     allFilesAccepted fs accept :=
       forallb (fun f => sampleFileAccepted f accept) fs;
     fileMatchSize := sampleFileMatchSize;
     isIeOrEdge := ieOrEdge;
     composeEventHandlers := VComposed;
     isPropagationStopped := propagationStopped;
     isDefaultPrevented := defaultPrevented |}.

(** Node [n] contains the nodes [n], [n+1], ..., [n+9]. *)
Definition sampleDom : Dom :=
  {| contains node el := Nat.leb node el && Nat.ltb el (node + 10);
     isEqualNode := Nat.eqb |}.

Definition sampleRuntime : Runtime :=
  {| toPropertyKey _ := "[object]" |}.

Definition noProps : Props :=
  {| p_accept := None; p_disabled := None; p_preventDropOnDocument := None;
     p_multiple := None; p_name := None; p_maxSize := None;
     p_minSize := None; p_getDataTransferItems := None; p_onClick := None;
     p_onFocus := None; p_onBlur := None; p_onKeyDown := None;
     p_onDrop := None; p_onDropAccepted := None; p_onDropRejected := None;
     p_onDragStart := None; p_onDragEnter := None; p_onDragOver := None;
     p_onDragLeave := None; p_onFileDialogCancel := None |}.

(** [<Dropzone multiple={false} maxSize={10}>] *)
Definition singleProps : Props :=
  {| p_accept := None; p_disabled := None; p_preventDropOnDocument := None;
     p_multiple := Some false; p_name := None; p_maxSize := Some (Fin 10);
     p_minSize := None; p_getDataTransferItems := None; p_onClick := None;
     p_onFocus := None; p_onBlur := None; p_onKeyDown := None;
     p_onDrop := None; p_onDropAccepted := None; p_onDropRejected := None;
     p_onDragStart := None; p_onDragEnter := None; p_onDragOver := None;
     p_onDragLeave := None; p_onFileDialogCancel := None |}.

Definition fileA : File := mkFile "a.txt" "text/plain" 3.
Definition fileB : File := mkFile "b.bin" "application/octet-stream" 50.
Definition fileC : File := mkFile "c.txt" "text/plain" 5.

(** A drag event over node [t] that carries files. *)
Definition dragEvt (t : Node) : Evt :=
  {| target := t;
     dataTransfer := Some {| types := ["Files"]; dropEffect := "none" |};
     keyCode := 0; defaultPrevented := false; propagationStopped := false;
     persisted := false |}.

(** A click on node [t]. *)
Definition clickEvt (t : Node) : Evt :=
  {| target := t; dataTransfer := None; keyCode := 0;
     defaultPrevented := false; propagationStopped := false;
     persisted := false |}.

(** A state in which two text files are being dragged. *)
Definition draggingTwo : State :=
  {| draggedFiles := [fileA; fileC]; acceptedFiles := [];
     rejectedFiles := []; isDragActive := true; isFocused := true |}.

(** A world after mounting: the root node [0] is attached and the hidden
    input holds the name of an earlier selection. *)
Definition mountedWorld (props : Props) : World :=
  {| state := createInitialState; propsRef := props; nodeRef := Some 0%nat;
     inputRef := Some {| value := "old.txt"; files := [] |};
     dragTargetsRef := []; isFileDialogActiveRef := false;
     trace := [] |}.

(** A run of the controller: the actions are taken from left to right. *)
Definition runActions {U : Utils} (D : Dom) (actions : list Action)
    (w : World) : World :=
  fold_left (fun w a => step D a w) actions w.

(** [<Dropzone disabled>] *)
Definition disabledProps : Props :=
  {| p_accept := None; p_disabled := Some true;
     p_preventDropOnDocument := None;
     p_multiple := None; p_name := None; p_maxSize := None;
     p_minSize := None; p_getDataTransferItems := None; p_onClick := None;
     p_onFocus := None; p_onBlur := None; p_onKeyDown := None;
     p_onDrop := None; p_onDropAccepted := None; p_onDropRejected := None;
     p_onDragStart := None; p_onDragEnter := None; p_onDragOver := None;
     p_onDragLeave := None; p_onFileDialogCancel := None |}.

(** Props with the three drop callbacks given. *)
Definition callbackProps : Props :=
  {| p_accept := Some (AcceptString "text/plain"); p_disabled := None;
     p_preventDropOnDocument := None;
     p_multiple := None; p_name := None; p_maxSize := None;
     p_minSize := None; p_getDataTransferItems := None; p_onClick := None;
     p_onFocus := None; p_onBlur := None; p_onKeyDown := None;
     p_onDrop := Some id; p_onDropAccepted := Some id;
     p_onDropRejected := Some id;
     p_onDragStart := None; p_onDragEnter := None; p_onDragOver := None;
     p_onDragLeave := None; p_onFileDialogCancel := None |}.

(** [getRootProps({ tabIndex: 5 })] and [getRootProps({ refKey: 'onClick' })] *)
Definition tabIndexArgs : gmap string Value := {[ "tabIndex" := VNum 5 ]}.
Definition refKeyArgs : gmap string Value := {[ "refKey" := VStr "onClick" ]}.

(** Unfolding a handler down to the world it returns. *)
Ltac run_handler :=
  unfold exec, eval, onDocumentDrop, onDragStart, onDragEnter,
    onDragEnter_then, onDragOver, onDragLeave, onDrop, onDrop_then,
    onClick, onInputElementClick, onFileDialogCancel,
    onFileDialogCancel_timeout, onFocus, onBlur, onKeyDown, open,
    callProp, when, bind, ret, emit, setState, getProps, getNodeRef,
    getInputRef, getDragTargets, getFileDialogActive, setDragTargets,
    setFileDialogActive, setInputRef, setPropsRef, setNodeRef;
  cbn.

(** An event whose propagation a handler has stopped. *)
Definition stoppedEvt (t : Node) : Evt := stopPropagation (dragEvt t).

(** A key press on node [t]. *)
Definition keyEvt (t : Node) (code : Z) : Evt :=
  {| target := t; dataTransfer := None; keyCode := code;
     defaultPrevented := false; propagationStopped := false;
     persisted := false |}.

(** A world in which the file dialog has been opened from
    [mountedWorld] and the user has picked nothing. *)
Definition dialogOpenWorld (props : Props) : World :=
  exec open (mountedWorld props).

(** Props with [onFileDialogCancel] and a [name]. *)
Definition cancelProps : Props :=
  {| p_accept := Some (AcceptString "text/plain"); p_disabled := Some true;
     p_preventDropOnDocument := Some false;
     p_multiple := Some false; p_name := Some "upload"; p_maxSize := None;
     p_minSize := None; p_getDataTransferItems := None; p_onClick := None;
     p_onFocus := None; p_onBlur := None; p_onKeyDown := None;
     p_onDrop := None; p_onDropAccepted := None; p_onDropRejected := None;
     p_onDragStart := None; p_onDragEnter := None; p_onDragOver := None;
     p_onDragLeave := None; p_onFileDialogCancel := Some tt |}.

(** [getRootProps({ className: 'zone', onClick: f })] *)
Definition classNameArgs : gmap string Value :=
  {[ "className" := VStr "zone"; "onClick" := VFun 1 ]}.

(** ** Running the controller *)

(** The drag enters the root [0], then its child [3] twice; each target
    is counted once. *)
Example drag_enter_counts_once :
  dragTargetsRef
    (@runActions (sampleUtils false) sampleDom
       [DragEnter (dragEvt 0); DragEnter (dragEvt 3); DragEnter (dragEvt 3)]
       (mountedWorld noProps))
  = [0%nat; 3%nat].
Proof. reflexivity. Qed.

(** Leaving the root while the child is still entered keeps the dropzone
    active; leaving the child as well clears it. *)
Example drag_leave_nested :
  let entered :=
    @runActions (sampleUtils false) sampleDom
      [DragEnter (dragEvt 0); DragEnter (dragEvt 3);
       DragEnterResolved (dragEvt 3) [fileA]; DragLeave (dragEvt 0)]
      (mountedWorld noProps) in
  let left :=
    @step (sampleUtils false) sampleDom (DragLeave (dragEvt 3)) entered in
  (dragTargetsRef entered = [3%nat]
   /\ isDragActive (state entered) = true
   /\ draggedFiles (state entered) = [fileA])
  /\ (dragTargetsRef left = []
      /\ isDragActive (state left) = false
      /\ draggedFiles (state left) = []).
Proof. repeat split. Qed.

(** A click with the input mounted clears and clicks it; on IE or Edge
    the click only schedules [open]. *)
Example click_opens_dialog :
  let w := exec (@onClick (sampleUtils false) (clickEvt 0))
                (mountedWorld noProps) in
  let ie := exec (@onClick (sampleUtils true) (clickEvt 0))
                 (mountedWorld noProps) in
  (trace w = [InputClick]
   /\ inputRef w = Some {| value := ""; files := [] |}
   /\ isFileDialogActiveRef w = true)
  /\ (trace ie = [SetTimeout OpenTimer 0]
      /\ inputRef ie = inputRef (mountedWorld noProps)
      /\ isFileDialogActiveRef ie = false).
Proof. repeat split. Qed.

(** A drop of three files with no props: all three are accepted. *)
Example drop_accepts_all :
  let w :=
    @runActions (sampleUtils false) sampleDom
      [Drop (dragEvt 0);
       DropResolved noProps (persist (preventDefault (dragEvt 0)))
                    [fileA; fileB; fileC]]
      (mountedWorld noProps) in
  acceptedFiles (state w) = [fileA; fileB; fileC]
  /\ rejectedFiles (state w) = []
  /\ trace w
     = [SetState UDragCleared;
        PromiseThen false
          (DropThen noProps (persist (preventDefault (dragEvt 0))));
        SetState (UDropped [fileA; fileB; fileC] [])].
Proof. repeat split. Qed.

(** [getRootProps()] of an enabled dropzone. *)
Example getRootProps_enabled :
  let result :=
    @getRootProps (sampleUtils false) sampleRuntime noProps ∅ in
  result !! "onClick" = Some (VInst InstOnClick)
  /\ result !! "ref" = Some (VRef NodeRef)
  /\ result !! "tabIndex" = Some (VNum 0)
  /\ size result = 11%nat.
Proof. repeat split; vm_compute; reflexivity. Qed.

(** ** The accepted and the rejected files of a drop *)

Section Partition.

Context {U : Utils}.

Variables (accept : option Accept) (current : Props).

Let ok := fileOk accept current.

Lemma classify_from (l accepted rejected : list File) :
  fold_left (classifyStep accept current) l (accepted, rejected)
  = (accepted ++ List.filter ok l,
     rejected ++ List.filter (fun f => negb (ok f)) l).
Proof.
  revert accepted rejected.
  induction l as [|f l IH]; intros accepted rejected; cbn [fold_left].
  - simpl. by rewrite !app_nil_r.
  - change (classifyStep accept current (accepted, rejected) f)
      with (if ok f then (accepted ++ [f], rejected)
            else (accepted, rejected ++ [f])).
    destruct (ok f) eqn:Hf; rewrite IH; cbn [List.filter]; rewrite Hf.
    all: cbn [negb]; rewrite <- ?app_assoc; reflexivity.
Qed.

Lemma classify_filter (l : list File) :
  classify accept current l
  = (List.filter ok l, List.filter (fun f => negb (ok f)) l).
Proof. unfold classify. by rewrite classify_from. Qed.

End Partition.

Lemma filter_sublist {A} (f : A -> bool) (l : list A) :
  sublist (List.filter f l) l.
Proof.
  induction l as [|x l IH]; simpl.
  - constructor.
  - destruct (f x); by constructor.
Qed.

Lemma filter_split_Permutation {A} (f : A -> bool) (l : list A) :
  Permutation (List.filter f l ++ List.filter (fun x => negb (f x)) l) l.
Proof.
  induction l as [|x l IH]; simpl.
  - constructor.
  - destruct (f x); simpl.
    + by constructor.
    + rewrite <- Permutation_middle. by constructor.
Qed.

(** C1, for a drop in single mode.  With [multiple={false}] and
    [maxSize={10}], dropping [a.txt] (3 bytes), [b.bin] (50 bytes) and
    [c.txt] (5 bytes) leaves [acceptedFiles] empty although [a.txt] passes
    both tests, and [rejectedFiles] is [b.bin; a.txt; c.txt], which is not
    in the order of the drop. *)
Lemma onDrop_partition_counterexample :
  let fileList := [fileA; fileB; fileC] in
  let lists :=
    @dropLists (sampleUtils false) singleProps singleProps fileList in
  lists = ([], [fileB; fileA; fileC])
  /\ ~ (forall file, In file fileList ->
          (In file lists.1
           <-> @fileOk (sampleUtils false) (p_accept singleProps)
                       singleProps file = true))
  /\ ~ sublist lists.2 fileList.
Proof.
  cbv zeta. split; [reflexivity|]. split.
  - intros H. specialize (H fileA (or_introl eq_refl)).
    destruct H as [_ H]. exact (H eq_refl).
  - change (~ sublist [fileB; fileA; fileC] [fileA; fileB; fileC]).
    intros H.
    apply sublist_cons_r in H as [H | (l' & Heq & H)].
    + apply sublist_cons_r in H as [H | (l' & Heq & H)].
      * apply sublist_length in H. simpl in H. lia.
      * injection Heq as <-. apply sublist_length in H. simpl in H. lia.
    + discriminate Heq.
Qed.

Lemma dropLists_filter {U : Utils} (captured current : Props)
    (fileList : list File) :
  let ok := fileOk (p_accept captured) current in
  let matching := List.filter ok fileList in
  let others := List.filter (fun f => negb (ok f)) fileList in
  dropLists captured current fileList
  = if negb (withDefault true (p_multiple captured))
       && (1 <? Z.of_nat (length matching))
    then ([], others ++ matching)
    else (matching, others).
Proof.
  cbv zeta. unfold dropLists. rewrite classify_filter. reflexivity.
Qed.

(** C1, as amended.  Every dropped file goes to exactly one of the two
    lists.  A file is accepted iff it matches the [accept] prop
    ([fileAccepted]), its size lies within [minSize, maxSize] (with
    [maxSize] read as [Infinity] and [minSize] as [0] when null) and the
    single-mode check does not fire, that is [multiple] is true or at most
    one file of the drop passes the two tests.  [acceptedFiles] keeps the
    order of the drop; so does [rejectedFiles] when the check does not
    fire, and when it fires [rejectedFiles] is the failing files followed
    by the passing ones, each group in the order of the drop.  The two
    lists together are a permutation of the dropped list.  The size test
    is the helper [fileMatchSize], assumed to compare the size of the file
    with the two bounds. *)
Theorem onDrop_partition {U : Utils}
    (Hsize : forall file maxSize minSize,
        fileMatchSize file maxSize minSize
        = Num_leb (Fin (file_size file)) maxSize
          && Num_leb minSize (Fin (file_size file)))
    (captured current : Props) (fileList : list File) :
  let maxSize :=
    match p_maxSize current with None => Infinity | Some m => m end in
  let minSize :=
    match p_minSize current with None => Fin 0 | Some m => m end in
  let passes file :=
    fileAccepted file (p_accept captured)
    && (Num_leb (Fin (file_size file)) maxSize
        && Num_leb minSize (Fin (file_size file))) in
  let passing := List.filter passes fileList in
  let failing := List.filter (fun f => negb (passes f)) fileList in
  let fires :=
    negb (withDefault true (p_multiple captured))
    && (1 <? Z.of_nat (length passing)) in
  let accepted := (dropLists captured current fileList).1 in
  let rejected := (dropLists captured current fileList).2 in
  accepted = (if fires then [] else passing)
  /\ rejected = (if fires then failing ++ passing else failing)
  /\ (forall file,
        In file accepted
        <-> In file fileList /\ passes file = true /\ fires = false)
  /\ (forall file,
        In file rejected
        <-> In file fileList /\ (passes file = false \/ fires = true))
  /\ sublist accepted fileList
  /\ (fires = false -> sublist rejected fileList)
  /\ Permutation (accepted ++ rejected) fileList.
Proof.
  intros maxSize minSize passes passing failing fires accepted rejected.
  assert (Hok : forall f, fileOk (p_accept captured) current f = passes f).
  { intros f. unfold fileOk, passes. by rewrite Hsize. }
  assert (Hlists : dropLists captured current fileList
                   = if fires then ([], failing ++ passing)
                     else (passing, failing)).
  { rewrite dropLists_filter. cbv zeta. subst fires passing failing.
    rewrite (List.filter_ext _ _ Hok).
    rewrite (List.filter_ext (fun f => negb (fileOk _ current f))
                             (fun f => negb (passes f))); [done|].
    intros f. by rewrite Hok. }
  assert (Ha : accepted = if fires then [] else passing).
  { subst accepted. rewrite Hlists. by destruct fires. }
  assert (Hr : rejected = if fires then failing ++ passing else failing).
  { subst rejected. rewrite Hlists. by destruct fires. }
  split; [exact Ha|]. split; [exact Hr|].
  rewrite Ha, Hr. clear Ha Hr Hlists accepted rejected.
  split; [|split; [|split; [|split]]].
  - intros file. destruct fires.
    + simpl. split; [tauto|]. intros (_ & _ & ?); discriminate.
    + subst passing. rewrite List.filter_In. tauto.
  - intros file. destruct fires.
    + rewrite in_app_iff. subst failing passing. rewrite !List.filter_In.
      destruct (passes file); simpl; tauto.
    + subst failing. rewrite List.filter_In.
      destruct (passes file); simpl; intuition discriminate.
  - destruct fires; [apply sublist_nil_l | apply filter_sublist].
  - intros ->. apply filter_sublist.
  - destruct fires; simpl.
    + rewrite Permutation_app_comm. apply filter_split_Permutation.
    + apply filter_split_Permutation.
Qed.

(** The sample size test compares the size with the two bounds; the
    single-mode drop of three files, two of which pass. *)
Lemma onDrop_partition_witness :
  (forall file maxSize minSize,
      sampleFileMatchSize file maxSize minSize
      = Num_leb (Fin (file_size file)) maxSize
        && Num_leb minSize (Fin (file_size file)))
  /\ (@dropLists (sampleUtils false) singleProps singleProps
                 [fileA; fileB; fileC]).1 = []
  /\ (@dropLists (sampleUtils false) singleProps singleProps
                 [fileA; fileB; fileC]).2 = [fileB; fileA; fileC].
Proof.
  split; [reflexivity|].
  pose proof (@onDrop_partition (sampleUtils false)
                (fun file maxSize minSize => eq_refl)
                singleProps singleProps [fileA; fileB; fileC]) as H.
  cbv zeta in H. destruct H as (Ha & Hr & _).
  split; [exact Ha | exact Hr].
Defined.

(** C2.  The single-mode check of the drop continuation: when [multiple]
    is false and more than one file was accepted by the [forEach], all of
    them are appended to [rejectedFiles], in order, and [acceptedFiles]
    becomes empty; when at most one file was accepted nothing changes; and
    [multiple] counts as true when the prop is not given. *)
Theorem onDrop_single_mode {U : Utils} (captured current : Props)
    (fileList : list File) :
  let before := classify (p_accept captured) current fileList in
  let after := dropLists captured current fileList in
  (p_multiple captured = Some false ->
   (1 < length before.1)%nat ->
   after = ([], before.2 ++ before.1))
  /\ ((length before.1 <= 1)%nat -> after = before)
  /\ (p_multiple captured = None -> after = before)
  /\ (p_multiple captured = Some true -> after = before).
Proof.
  cbv zeta. unfold dropLists.
  destruct (classify (p_accept captured) current fileList)
    as [accepted rejected]; simpl.
  repeat split.
  - intros -> Hlen. simpl.
    destruct (Z.ltb_spec 1 (Z.of_nat (length accepted))); [done | lia].
  - intros Hlen.
    destruct (Z.ltb_spec 1 (Z.of_nat (length accepted))); [lia|].
    by rewrite andb_false_r.
  - by intros ->.
  - by intros ->.
Qed.

(** ** Drag targets *)

Lemma indexOf_from_ge (i : Z) (l : list Node) (x : Node) :
  In x l -> i <= indexOf_from i l x.
Proof.
  revert i. induction l as [|y l IH]; intros i Hin; simpl in *.
  - destruct Hin.
  - destruct (Nat.eqb_spec y x) as [_|Hne]; [lia|].
    destruct Hin as [Heq|Hin]; [congruence|].
    specialize (IH (i + 1) Hin). lia.
Qed.

Lemma indexOf_from_absent (i : Z) (l : list Node) (x : Node) :
  ~ In x l -> indexOf_from i l x = -1.
Proof.
  revert i. induction l as [|y l IH]; intros i Hin; simpl in *.
  - reflexivity.
  - destruct (Nat.eqb_spec y x) as [Heq|Hne]; [tauto|].
    apply IH. tauto.
Qed.

(** [indexOf] answers [-1] exactly for an element that is not there. *)
Lemma indexOf_absent (l : list Node) (x : Node) :
  indexOf l x = -1 <-> ~ In x l.
Proof.
  split.
  - intros Heq Hin. apply (indexOf_from_ge 0) in Hin.
    unfold indexOf in Heq. lia.
  - apply indexOf_from_absent.
Qed.

Lemma onDragEnter_targets {U : Utils} {D : Dom} (evt : Evt) (w : World) :
  dragTargetsRef (exec (onDragEnter evt) w)
  = if indexOf (dragTargetsRef w) (target evt) =? -1
    then dragTargetsRef w ++ [target evt]
    else dragTargetsRef w.
Proof.
  run_handler. repeat (case_match; simplify_eq; cbn); reflexivity.
Qed.

Lemma onDragLeave_targets {U : Utils} {D : Dom} (evt : Evt) (w : World) :
  dragTargetsRef (exec (onDragLeave evt) w)
  = List.filter
      (fun el => negb (Nat.eqb el (target evt))
                 && nodeContains (nodeRef w) el)
      (dragTargetsRef w).
Proof.
  run_handler. repeat (case_match; simplify_eq; cbn); reflexivity.
Qed.

Lemma NoDup_push (l : list Node) (x : Node) :
  NoDup l -> ~ In x l -> NoDup (l ++ [x]).
Proof.
  intros Hl Hx. apply NoDup_app. split; [exact Hl|]. split.
  - intros y Hy Hy'. apply list_elem_of_In in Hy.
    apply list_elem_of_singleton in Hy'. by subst.
  - apply NoDup_singleton.
Qed.

Lemma step_NoDup {U : Utils} (D : Dom) (a : Action) (w : World) :
  NoDup (dragTargetsRef w) -> NoDup (dragTargetsRef (step D a w)).
Proof.
  intros Hw. destruct a; unfold step.
  all: try (run_handler; repeat (case_match; simplify_eq; cbn);
            first [exact Hw | apply NoDup_nil_2]).
  - rewrite onDragEnter_targets.
    destruct (Z.eqb_spec (indexOf (dragTargetsRef w) (target evt)) (-1))
      as [Heq|_]; [|exact Hw].
    apply NoDup_push; [exact Hw|]. by apply indexOf_absent.
  - rewrite onDragLeave_targets.
    apply NoDup_ListNoDup, List.NoDup_filter, NoDup_ListNoDup, Hw.
Qed.

(** C3.  [onDragLeave] keeps of the drag-target list exactly the recorded
    targets that are not the event target and that the dropzone node
    contains: a recorded target [el] stays iff it differs from the event
    target, the node ref holds a node, and that node [contains] [el]; so
    with a null node ref nothing is kept.  When nothing is kept it clears
    the drag state: [isDragActive] becomes false and [draggedFiles]
    empty, by one [setState], followed by the user's [onDragLeave] when
    that prop is given and the drag data has files.  When a target is
    kept only the list changes: the state is as before and the trace
    gains nothing, so no [setState] and no call of the user's
    [onDragLeave]. *)
Theorem onDragLeave_spec {U : Utils} {D : Dom} (evt : Evt) (w : World) :
  let evt' := persist (preventDefault evt) in
  let kept :=
    List.filter
      (fun el => negb (Nat.eqb el (target evt))
                 && match nodeRef w with
                    | Some node => contains node el
                    | None => false
                    end)
      (dragTargetsRef w) in
  let w' := exec (onDragLeave evt) w in
  dragTargetsRef w' = kept
  /\ (forall el,
        In el (dragTargetsRef w')
        <-> In el (dragTargetsRef w) /\ el <> target evt
            /\ exists node,
                 nodeRef w = Some node /\ contains node el = true)
  /\ (nodeRef w = None -> dragTargetsRef w' = [])
  /\ (forall node,
        nodeRef w = Some node ->
        dragTargetsRef w'
        = List.filter
            (fun el => negb (Nat.eqb el (target evt)) && contains node el)
            (dragTargetsRef w))
  /\ ~ In (target evt) (dragTargetsRef w')
  /\ (kept = [] ->
      state w' = runUpdater UDragCleared (state w)
      /\ isDragActive (state w') = false
      /\ draggedFiles (state w') = []
      /\ trace w'
         = trace w ++ SetState UDragCleared
             :: (if given (p_onDragLeave (propsRef w))
                    && isDragDataWithFiles evt'
                 then [CallProp OnDragLeave evt'] else []))
  /\ (kept <> [] ->
      state w' = state w /\ trace w' = trace w
      /\ w' = exec (setDragTargets kept) w).
Proof.
  intros evt' kept w'.
  assert (Hts : dragTargetsRef w' = kept).
  { subst w' kept. rewrite onDragLeave_targets. reflexivity. }
  assert (Hin : forall el,
             In el kept
             <-> In el (dragTargetsRef w) /\ el <> target evt
                 /\ exists node,
                      nodeRef w = Some node /\ contains node el = true).
  { intros el. subst kept. rewrite List.filter_In, andb_true_iff.
    rewrite negb_true_iff, Nat.eqb_neq.
    destruct (nodeRef w) as [node|].
    - split.
      + intros (Hel & Hne & Hc). repeat split; try done. by exists node.
      + intros (Hel & Hne & node' & Heq & Hc).
        injection Heq as <-. done.
    - split.
      + intros (_ & _ & Hc). discriminate Hc.
      + intros (_ & _ & node' & Heq & _). discriminate Heq. }
  split; [exact Hts|].
  split; [intros el; rewrite Hts; apply Hin|].
  split.
  { intros Hnone. rewrite Hts. subst kept. rewrite Hnone.
    clear. induction (dragTargetsRef w) as [|el l IH]; simpl; [done|].
    rewrite andb_false_r. exact IH. }
  split.
  { intros node Hnode. rewrite Hts. subst kept. by rewrite Hnode. }
  split; [rewrite Hts; intros H; apply Hin in H; tauto|].
  clear Hts. subst w' evt'. run_handler.
  change (List.filter
            (keepTarget (nodeRef w) (persist (preventDefault evt)))
            (dragTargetsRef w)) with kept.
  clearbody kept.
  assert (Hlen : (0 <? Z.of_nat (length kept)) = negb (bool_decide (kept = []))).
  { destruct kept; reflexivity. }
  rewrite Hlen. clear Hlen. destruct kept as [|el kept']; cbn.
  - split; [intros _ | done].
    destruct (p_onDragLeave (propsRef w)) as [f|]; cbn;
      [destruct (isDragDataWithFiles _); cbn|];
      rewrite <- ?app_assoc; repeat split.
  - split; [done | intros _; repeat split].
Qed.

(** C4.  The drag-target list has no duplicates in any reachable state of
    the controller.  [onDragEnter] appends the event target only when
    [indexOf] does not find it, and every action of the controller
    preserves the absence of duplicates. *)
Theorem dragTargets_NoDup {U : Utils} :
  (forall w, reachable w -> NoDup (dragTargetsRef w))
  /\ (forall (D : Dom) evt w,
        (In (target evt) (dragTargetsRef w) ->
         dragTargetsRef (exec (onDragEnter evt) w) = dragTargetsRef w)
        /\ (~ In (target evt) (dragTargetsRef w) ->
            dragTargetsRef (exec (onDragEnter evt) w)
            = dragTargetsRef w ++ [target evt]))
  /\ (forall (D : Dom) a w,
        NoDup (dragTargetsRef w) -> NoDup (dragTargetsRef (step D a w))).
Proof.
  split; [|split].
  - induction 1 as [props|D a w _ IH].
    + apply NoDup_nil_2.
    + by apply step_NoDup.
  - intros D evt w. rewrite onDragEnter_targets.
    destruct (Z.eqb_spec (indexOf (dragTargetsRef w) (target evt)) (-1))
      as [Heq|Hne].
    + apply indexOf_absent in Heq. tauto.
    + split; [done|]. intros Hin. apply indexOf_absent in Hin. done.
  - intros D a w. apply step_NoDup.
Qed.

(** ** The value the hook returns *)

Lemma Z_of_length_pos {A} (l : list A) :
  (0 <? Z.of_nat (length l)) = true <-> l <> [].
Proof.
  rewrite Z.ltb_lt. destruct l; simpl; split; intros; try done; lia.
Qed.

Lemma Z_of_length_le1 {A} (l : list A) :
  (Z.of_nat (length l) <=? 1) = false <-> (1 < length l)%nat.
Proof. rewrite Z.leb_gt. lia. Qed.

(** C5.  In the value [useDropzone] returns, [isDragAccept] is true iff
    [draggedFiles] is non-empty and every dragged file matches the
    [accept] prop, and [isDragReject] is true iff [draggedFiles] is
    non-empty and either not every dragged file is accepted or [multiple]
    is false and more than one file is dragged.  So with [multiple] false
    and several dragged files that are all accepted, both flags are true.
    The helper [allFilesAccepted] is assumed to test every file with
    [fileAccepted]. *)
Theorem useDropzone_drag_flags {U : Utils}
    (Hall : forall fs accept,
        allFilesAccepted fs accept
        = forallb (fun f => fileAccepted f accept) fs)
    (props : Props) (st : State) :
  let dropzone := useDropzone props st in
  let dragged := draggedFiles st in
  let allAccepted :=
    Forall (fun f => fileAccepted f (p_accept props) = true) dragged in
  (r_isDragAccept dropzone = true <-> dragged <> [] /\ allAccepted)
  /\ (r_isDragReject dropzone = true
      <-> dragged <> []
          /\ (~ allAccepted
              \/ (p_multiple props = Some false
                  /\ (1 < length dragged)%nat)))
  /\ (p_multiple props = Some false -> (1 < length dragged)%nat ->
      allAccepted ->
      r_isDragAccept dropzone = true /\ r_isDragReject dropzone = true).
Proof.
  intros dropzone dragged allAccepted.
  assert (Hacc : allFilesAccepted dragged (p_accept props) = true
                 <-> allAccepted).
  { rewrite Hall. subst allAccepted.
    by rewrite List.forallb_forall, List.Forall_forall. }
  assert (Hmul : withDefault true (p_multiple props) = false
                 <-> p_multiple props = Some false).
  { destruct (p_multiple props) as [[]|]; simpl; split; congruence. }
  assert (HA : r_isDragAccept dropzone = true
               <-> dragged <> [] /\ allAccepted).
  { subst dropzone. cbn. fold dragged.
    by rewrite andb_true_iff, Z_of_length_pos, Hacc. }
  assert (HR : r_isDragReject dropzone = true
               <-> dragged <> []
                   /\ (~ allAccepted
                       \/ (p_multiple props = Some false
                           /\ (1 < length dragged)%nat))).
  { subst dropzone. cbn. fold dragged.
    rewrite andb_true_iff, Z_of_length_pos, orb_true_iff.
    rewrite !negb_true_iff, orb_false_iff, Hmul, Z_of_length_le1.
    rewrite andb_false_iff, <- not_true_iff_false, Z_of_length_pos.
    rewrite <- not_true_iff_false, Hacc. tauto. }
  split; [exact HA|]. split; [exact HR|].
  intros Hm Hlen Hall'. split.
  - apply HA. split; [|exact Hall']. intros E. rewrite E in Hlen.
    simpl in Hlen. lia.
  - apply HR. split; [|tauto]. intros E. rewrite E in Hlen.
    simpl in Hlen. lia.
Qed.

(** Two accepted files dragged over a dropzone with [multiple={false}]:
    the drag is reported as accepted and as rejected at once. *)
Lemma useDropzone_drag_flags_witness :
  r_isDragAccept (@useDropzone (sampleUtils false) singleProps draggingTwo)
  = true
  /\ r_isDragReject (@useDropzone (sampleUtils false) singleProps
                                  draggingTwo) = true.
Proof.
  pose proof (@useDropzone_drag_flags (sampleUtils false)
                (fun fs accept => eq_refl) singleProps draggingTwo) as H.
  cbv zeta in H. destruct H as (_ & _ & H).
  apply H.
  - reflexivity.
  - simpl. lia.
  - repeat constructor.
Defined.

(** ** Entering a drag *)

(** C6.  When the drag data of a drag-enter event has files, the handler
    hands the event to the item getter and registers a continuation; when
    that continuation runs and the propagation of the event has not been
    stopped, it sets [isDragActive] to true and stores the resolved list
    as [draggedFiles], whatever the list is, the empty list included. *)
Theorem onDragEnter_activates {U : Utils} {D : Dom} (evt : Evt) (w : World)
    (Hfiles : isDragDataWithFiles (persist (preventDefault evt)) = true) :
  let evt' := persist (preventDefault evt) in
  In (PromiseThen (given (p_getDataTransferItems (propsRef w)))
                  (DragEnterThen evt'))
     (trace (exec (onDragEnter evt) w))
  /\ (forall (resolved : Evt) (dragged : list File) (w1 : World),
        isPropagationStopped resolved = false ->
        let w2 := exec (onDragEnter_then resolved dragged) w1 in
        isDragActive (state w2) = true
        /\ draggedFiles (state w2) = dragged
        /\ state w2 = runUpdater (UDragEntered dragged) (state w1))
  /\ (forall (resolved : Evt) (w1 : World),
        isPropagationStopped resolved = false ->
        isDragActive (state (exec (onDragEnter_then resolved []) w1))
        = true).
Proof.
  intros evt'. split; [|split].
  - subst evt'. run_handler. rewrite Hfiles.
    destruct (indexOf (dragTargetsRef w) (target evt) =? -1); cbn.
    all: destruct (p_onDragEnter (propsRef w)); cbn.
    all: rewrite ?in_app_iff; simpl; tauto.
  - intros resolved dragged w1 Hstop. run_handler. rewrite Hstop. cbn.
    repeat split.
  - intros resolved w1 Hstop. run_handler. rewrite Hstop. reflexivity.
Qed.

(** A drag enters node [3]; the platform reports no files while the drag
    lasts, and the dropzone still becomes active. *)
Lemma onDragEnter_activates_witness :
  @isDragDataWithFiles (sampleUtils false)
    (persist (preventDefault (dragEvt 3))) = true
  /\ isDragActive
       (state (exec (@onDragEnter_then (sampleUtils false) (dragEvt 3) [])
                    (initialWorld noProps))) = true.
Proof.
  split; [reflexivity|].
  pose proof (@onDragEnter_activates (sampleUtils false) sampleDom
                (dragEvt 3) (initialWorld noProps) eq_refl) as H.
  cbv zeta in H. destruct H as (_ & _ & H).
  apply H. reflexivity.
Defined.

(** ** A drop on the document *)

(** C7.  The mount effect installs [onDocumentDrop] on the document
    exactly when [preventDropOnDocument] is true, its value when the prop
    is not given.  When the drop target is inside the dropzone node the
    handler returns at once: the event and the world, the drag-target
    list included, are as before.  Otherwise (the target is outside the
    node, or the node ref is null) it prevents the default and resets the
    drag-target list to the empty list, and changes nothing else. *)
Theorem onDocumentDrop_spec {D : Dom} (evt : Evt) (w : World) :
  let inside := nodeContains (nodeRef w) (target evt) in
  (forall props,
      In (mkListener OnDocument "drop" (OfInst InstOnDocumentDrop))
         (mountListeners props)
      <-> withDefault true (p_preventDropOnDocument props) = true)
  /\ withDefault true (@None bool) = true
  /\ (nodeRef w = None -> inside = false)
  /\ (forall node, nodeRef w = Some node ->
                   inside = contains node (target evt))
  /\ (inside = true -> onDocumentDrop evt w = (evt, w))
  /\ (inside = false ->
      onDocumentDrop evt w
      = (preventDefault evt, exec (setDragTargets []) w)
      /\ dragTargetsRef (exec (onDocumentDrop evt) w) = []
      /\ defaultPrevented (eval (onDocumentDrop evt) w) = true).
Proof.
  intros inside. repeat split.
  - unfold mountListeners.
    destruct (withDefault true (p_preventDropOnDocument props)); simpl.
    + done.
    + intros [H|[]]. discriminate H.
  - intros H. unfold mountListeners. rewrite H. simpl. tauto.
  - subst inside. by intros ->.
  - subst inside. by intros node ->.
  - subst inside. intros H. run_handler. by rewrite H.
  - subst inside. run_handler. by rewrite H.
  - subst inside. run_handler. by rewrite H.
  - subst inside. run_handler. by rewrite H.
Qed.

(** ** Clicking the dropzone *)

(** What [open] does to the world, with and without a mounted input. *)
Lemma open_mounted (w : World) (el : InputEl) :
  inputRef w = Some el ->
  exec open w
  = {| state := state w; propsRef := propsRef w; nodeRef := nodeRef w;
       inputRef := Some {| value := ""; files := files el |};
       dragTargetsRef := dragTargetsRef w;
       isFileDialogActiveRef := true;
       trace := trace w ++ [InputClick] |}.
Proof. intros H. run_handler. by rewrite H. Qed.

Lemma open_unmounted (w : World) :
  inputRef w = None -> exec open w = exec (setFileDialogActive true) w.
Proof. intros H. run_handler. by rewrite H. Qed.

(** C8, for a dropzone whose hidden input is not mounted.  The click is
    not default-prevented and the browser is neither IE nor Edge, so
    [open] runs; it marks the dialog active, but there is no input whose
    value it could clear and which it could click. *)
Lemma onClick_counterexample :
  let w' := exec (@onClick (sampleUtils false) (clickEvt 0))
                 (initialWorld noProps) in
  @isDefaultPrevented (sampleUtils false) (clickEvt 0) = false
  /\ isFileDialogActiveRef w' = true
  /\ inputRef w' = None
  /\ trace w' = []
  /\ ~ (@isDefaultPrevented (sampleUtils false) (clickEvt 0) = false ->
        (exists el, inputRef w' = Some el /\ value el = "")
        /\ In InputClick (trace w')).
Proof.
  cbv zeta. repeat split. intros H.
  destruct (H eq_refl) as [_ Hclick]. vm_compute in Hclick. exact Hclick.
Qed.

(** C8, as amended.  [onClick] first calls the user's [onClick] prop when
    it is given.  Then, iff the event's default was not prevented, it
    opens the file dialog: it calls [open] directly, or on IE and Edge
    hands [open] to [setTimeout] with delay 0 so that it runs later.
    [open] marks the dialog active and, when the hidden input is mounted,
    clears the value of the input and clicks it.  When the default was
    prevented, [open] is neither called nor scheduled and nothing of the
    dropzone changes. *)
Theorem onClick_spec {U : Utils} (evt : Evt) (w : World) :
  let user := p_onClick (propsRef w) in
  let evt1 := match user with Some f => f evt | None => evt end in
  let w1 :=
    match user with
    | Some _ => exec (emit (CallProp OnClick evt)) w
    | None => w
    end in
  callProp OnClick user evt w = (evt1, w1)
  /\ (state w1 = state w /\ inputRef w1 = inputRef w
      /\ isFileDialogActiveRef w1 = isFileDialogActiveRef w
      /\ dragTargetsRef w1 = dragTargetsRef w)
  /\ (isDefaultPrevented evt1 = true -> onClick evt w = (evt1, w1))
  /\ (isDefaultPrevented evt1 = false -> isIeOrEdge = false ->
      onClick evt w = (stopPropagation evt1, exec open w1))
  /\ (isDefaultPrevented evt1 = false -> isIeOrEdge = true ->
      onClick evt w
      = (stopPropagation evt1, exec (emit (SetTimeout OpenTimer 0)) w1))
  /\ (forall (D : Dom) w0, step D OpenTimeout w0 = exec open w0)
  /\ (forall w0 el,
        inputRef w0 = Some el ->
        let w2 := exec open w0 in
        isFileDialogActiveRef w2 = true
        /\ inputRef w2 = Some {| value := ""; files := files el |}
        /\ trace w2 = trace w0 ++ [InputClick]
        /\ state w2 = state w0)
  /\ (forall w0,
        inputRef w0 = None ->
        let w2 := exec open w0 in
        isFileDialogActiveRef w2 = true
        /\ inputRef w2 = None
        /\ trace w2 = trace w0
        /\ state w2 = state w0).
Proof.
  intros user evt1 w1.
  assert (Hcall : callProp OnClick user evt w = (evt1, w1)).
  { subst evt1 w1. unfold callProp. by destruct user. }
  split; [exact Hcall|]. split.
  { subst w1. destruct user; repeat split. }
  split; [|split; [|split; [|split; [|split]]]].
  - intros Hp. unfold onClick, bind, getProps. fold user.
    rewrite Hcall. by rewrite Hp.
  - intros Hp Hie. unfold onClick, bind, getProps. fold user.
    rewrite Hcall, Hp, Hie. cbv beta iota zeta delta [negb exec ret].
    by destruct (open w1) as [[] w2].
  - intros Hp Hie. unfold onClick, bind, getProps. fold user.
    rewrite Hcall, Hp, Hie. reflexivity.
  - reflexivity.
  - intros w0 el Hel w2. subst w2. rewrite (open_mounted w0 el Hel).
    repeat split.
  - intros w0 Hnone w2. subst w2. rewrite (open_unmounted w0 Hnone).
    repeat split. exact Hnone.
Qed.

(** ** The callbacks of a drop *)



(** ** Disabled dropzones *)

(** C10, for a caller that passes its own [tabIndex], and for one whose
    [refKey] is the name of a handler.  The dropzone is disabled, yet
    [getRootProps({ tabIndex: 5 })] returns [tabIndex] 5, because the
    caller's remaining props are spread last, and
    [getRootProps({ refKey: 'onClick' })] returns the node ref under
    [onClick], because the computed key comes after the handlers. *)
Lemma getRootProps_disabled_counterexample :
  let withTabIndex :=
    @getRootProps (sampleUtils false) sampleRuntime disabledProps
                  tabIndexArgs in
  let withRefKey :=
    @getRootProps (sampleUtils false) sampleRuntime disabledProps
                  refKeyArgs in
  p_disabled disabledProps = Some true
  /\ withTabIndex !! "tabIndex" = Some (VNum 5)
  /\ withTabIndex !! "tabIndex" <> Some (VNum (-1))
  /\ withRefKey !! "onClick" = Some (VRef NodeRef)
  /\ withRefKey !! "onClick" <> Some VNull.
Proof. cbv zeta. repeat split; vm_compute; congruence. Qed.

Lemma restOf_lookup (args : gmap string Value) (k : string) :
  restOf args !! k
  = if bool_decide (k ∈ "refKey" :: map fst rootHandlers)
    then None else args !! k.
Proof.
  unfold restOf.
  induction ("refKey" :: map fst rootHandlers) as [|k' ks IH]; simpl.
  - reflexivity.
  - rewrite lookup_delete. destruct (decide (k' = k)) as [->|Hk].
    + rewrite bool_decide_eq_true_2; [done | by left].
    + rewrite IH. destruct (bool_decide (k ∈ ks)) eqn:Hin.
      * apply bool_decide_eq_true_1 in Hin.
        rewrite bool_decide_eq_true_2; [done | by right].
      * apply bool_decide_eq_false_1 in Hin.
        rewrite bool_decide_eq_false_2; [done|].
        intros Hin'. apply elem_of_cons in Hin' as [?|?]; congruence.
Qed.

Lemma restOf_tabIndex (args : gmap string Value) :
  restOf args !! "tabIndex" = args !! "tabIndex".
Proof.
  rewrite restOf_lookup. rewrite bool_decide_eq_false_2; [done|].
  apply (bool_decide_unpack _). vm_compute. exact I.
Qed.

Lemma composeHandler_disabled (current : Props) (h : Value) :
  p_disabled current = Some true -> composeHandler current h = VNull.
Proof. unfold composeHandler. by intros ->. Qed.

(** C10, as amended.  When the [disabled] prop is true, [getRootProps]
    returns null for each of its nine event handlers whose name is not
    taken by [refKey] (none is taken under the default [refKey]), and it
    returns a [tabIndex] of -1, where an enabled dropzone gets 0, unless
    the caller's own props carry a [tabIndex], which then wins; the
    [isFocused] the hook returns is false whatever the focus state is. *)
Theorem getRootProps_disabled {U : Utils} {R : Runtime}
    (current : Props) (args : gmap string Value) (st : State)
    (Hdisabled : p_disabled current = Some true) :
  let refKey :=
    computedKey (match prop args "refKey" with
                 | VUndefined => VStr "ref"
                 | v => v
                 end) in
  let result := getRootProps current args in
  (forall key m,
      In (key, m) rootHandlers -> key <> refKey ->
      result !! key = Some VNull)
  /\ (args !! "refKey" = None ->
      forall key m, In (key, m) rootHandlers -> result !! key = Some VNull)
  /\ (args !! "tabIndex" = None -> result !! "tabIndex" = Some (VNum (-1)))
  /\ (forall enabled,
        p_disabled enabled <> Some true -> args !! "tabIndex" = None ->
        getRootProps enabled args !! "tabIndex" = Some (VNum 0))
  /\ (forall v, args !! "tabIndex" = Some v ->
                result !! "tabIndex" = Some v)
  /\ r_isFocused (useDropzone current st) = false.
Proof.
  intros refKey result.
  assert (Hhandlers : forall key m,
             In (key, m) rootHandlers -> key <> refKey ->
             result !! key = Some VNull).
  { intros key m Hin Hne. subst result. unfold getRootProps.
    fold refKey. rewrite lookup_union_r.
    2:{ rewrite restOf_lookup. rewrite bool_decide_eq_true_2; [done|].
        right. apply list_elem_of_In, in_map_iff. by exists (key, m). }
    unfold rootHandler. rewrite !composeHandler_disabled by done.
    simpl in Hin.
    repeat (destruct Hin as [Hin|Hin];
            [injection Hin as <- <-; by simplify_map_eq|]).
    destruct Hin. }
  split; [exact Hhandlers|]. split; [|split; [|split; [|split]]].
  - intros Href key m Hin. apply (Hhandlers key m Hin).
    subst refKey. unfold prop. rewrite Href. simpl.
    simpl in Hin.
    repeat (destruct Hin as [Hin|Hin]; [injection Hin as <- <-; done|]).
    destruct Hin.
  - intros Htab. subst result. unfold getRootProps.
    rewrite lookup_union_r.
    2:{ by rewrite restOf_tabIndex. }
    rewrite lookup_insert_eq. by rewrite Hdisabled.
  - intros enabled Hen Htab. unfold getRootProps.
    rewrite lookup_union_r.
    2:{ by rewrite restOf_tabIndex. }
    rewrite lookup_insert_eq.
    destruct (p_disabled enabled) as [[]|]; simpl; congruence.
  - intros v Htab. subst result. unfold getRootProps.
    apply lookup_union_Some_l. by rewrite restOf_tabIndex.
  - unfold useDropzone. cbn. rewrite Hdisabled. simpl. apply andb_false_r.
Qed.

(** A disabled dropzone and a caller without props of its own: the click
    handler is null, the tab index is -1 and the focus is not reported. *)
Lemma getRootProps_disabled_witness :
  p_disabled disabledProps = Some true
  /\ @getRootProps (sampleUtils false) sampleRuntime disabledProps ∅
       !! "onClick" = Some VNull
  /\ @getRootProps (sampleUtils false) sampleRuntime disabledProps ∅
       !! "tabIndex" = Some (VNum (-1))
  /\ r_isFocused (@useDropzone (sampleUtils false) disabledProps draggingTwo)
     = false.
Proof.
  split; [reflexivity|].
  pose proof (@getRootProps_disabled (sampleUtils false) sampleRuntime
                disabledProps ∅ draggingTwo eq_refl) as H.
  cbv zeta in H. destruct H as (_ & Hh & Ht & _ & _ & Hf).
  split; [|split].
  - apply (Hh eq_refl "onClick" InstOnClick). simpl. tauto.
  - apply Ht. reflexivity.
  - exact Hf.
Defined.

(** ** Further properties of the drop *)

(** X1.  Whatever the event carries, [onDrop] prevents the default,
    empties the drag-target list, marks the file dialog as closed and
    clears the drag state; the accepted and the rejected files, the other
    refs and the props stay as they are.  It registers the continuation
    exactly when the drag data has files. *)
Theorem onDrop_resets {U : Utils} (evt : Evt) (w : World) :
  let evt' := persist (preventDefault evt) in
  let w' := exec (onDrop evt) w in
  eval (onDrop evt) w = evt'
  /\ dragTargetsRef w' = []
  /\ isFileDialogActiveRef w' = false
  /\ state w'
     = {| draggedFiles := []; acceptedFiles := acceptedFiles (state w);
          rejectedFiles := rejectedFiles (state w); isDragActive := false;
          isFocused := isFocused (state w) |}
  /\ (propsRef w' = propsRef w /\ nodeRef w' = nodeRef w
      /\ inputRef w' = inputRef w)
  /\ trace w'
     = trace w ++ SetState UDragCleared
         :: (if isDragDataWithFiles evt'
             then [PromiseThen (given (p_getDataTransferItems (propsRef w)))
                               (DropThen (propsRef w) evt')]
             else []).
Proof.
  cbv zeta. run_handler.
  destruct (isDragDataWithFiles (persist (preventDefault evt))); cbn;
    rewrite <- ?app_assoc; repeat split.
Qed.

(** X2.  Once the propagation of the event has been stopped, neither
    continuation does anything: the world after it is the world before
    it, so no state is set and no callback of the user is called. *)
Theorem continuation_stopped {U : Utils} (evt : Evt) (w : World)
    (Hstop : isPropagationStopped evt = true) :
  (forall dragged, exec (onDragEnter_then evt dragged) w = w)
  /\ (forall captured fileList,
        exec (onDrop_then captured evt fileList) w = w).
Proof.
  split; intros; run_handler; by rewrite Hstop.
Qed.

Lemma continuation_stopped_witness :
  @isPropagationStopped (sampleUtils false) (stoppedEvt 0) = true
  /\ exec (@onDrop_then (sampleUtils false) callbackProps (stoppedEvt 0)
                        [fileA; fileB])
          (mountedWorld callbackProps)
     = mountedWorld callbackProps.
Proof.
  split; [reflexivity|].
  apply (@continuation_stopped (sampleUtils false) (stoppedEvt 0)
           (mountedWorld callbackProps) eq_refl).
Defined.

(** X3.  With [multiple] false a drop never accepts more than one
    file. *)
Theorem single_mode_accepts_at_most_one {U : Utils}
    (captured current : Props) (fileList : list File)
    (Hsingle : p_multiple captured = Some false) :
  (length (dropLists captured current fileList).1 <= 1)%nat.
Proof.
  unfold dropLists. rewrite Hsingle. cbn [withDefault negb andb].
  destruct (classify (p_accept captured) current fileList)
    as [accepted rejected].
  unfold singleModeCheck. cbn [negb andb].
  destruct (Z.ltb_spec 1 (Z.of_nat (length accepted))); simpl; lia.
Qed.

Lemma single_mode_accepts_at_most_one_witness :
  p_multiple singleProps = Some false
  /\ (length (@dropLists (sampleUtils false) singleProps singleProps
                         [fileA; fileB; fileC]).1 <= 1)%nat.
Proof.
  split; [reflexivity|].
  apply (@single_mode_accepts_at_most_one (sampleUtils false) singleProps
           singleProps [fileA; fileB; fileC] eq_refl).
Defined.

Lemma classify_ext {U : Utils} (a1 a2 : option Accept) (p1 p2 : Props)
    (l : list File) :
  (forall f, fileOk a1 p1 f = fileOk a2 p2 f) ->
  classify a1 p1 l = classify a2 p2 l.
Proof.
  intros Hok. rewrite !classify_filter.
  rewrite (List.filter_ext _ _ Hok).
  rewrite (List.filter_ext (fun f => negb (fileOk a1 p1 f))
                           (fun f => negb (fileOk a2 p2 f))); [done|].
  intros f. by rewrite Hok.
Qed.

(** X4.  The two lists of a drop depend on four props only: [accept] and
    [multiple] as they were when the drop event was handled, [maxSize] and
    [minSize] as they are when the promise resolves. *)
Theorem dropLists_depends {U : Utils} (captured captured' : Props)
    (current current' : Props) (fileList : list File)
    (Haccept : p_accept captured = p_accept captured')
    (Hmultiple : p_multiple captured = p_multiple captured')
    (Hmax : p_maxSize current = p_maxSize current')
    (Hmin : p_minSize current = p_minSize current') :
  dropLists captured current fileList
  = dropLists captured' current' fileList.
Proof.
  unfold dropLists. rewrite Hmultiple. f_equal.
  apply classify_ext. intros f. unfold fileOk.
  by rewrite Haccept, Hmax, Hmin.
Qed.

(** The callbacks given to the dropzone do not matter for the lists. *)
Lemma dropLists_depends_witness :
  @dropLists (sampleUtils false) noProps noProps [fileA; fileB]
  = @dropLists (sampleUtils false) disabledProps disabledProps
               [fileA; fileB].
Proof.
  apply (@dropLists_depends (sampleUtils false) noProps disabledProps
           noProps disabledProps [fileA; fileB]
           eq_refl eq_refl eq_refl eq_refl).
Defined.

(** X5.  A drop that resolves to no file at all still replaces the
    accepted and the rejected files of the state, by two empty lists, and
    still calls [onDrop] when it is given, with the two empty lists;
    [onDropRejected] and [onDropAccepted] are not called. *)
Theorem onDrop_then_empty {U : Utils} (captured : Props) (evt : Evt)
    (w : World) (Hstop : isPropagationStopped evt = false) :
  let w' := exec (onDrop_then captured evt []) w in
  acceptedFiles (state w') = []
  /\ rejectedFiles (state w') = []
  /\ trace w'
     = trace w ++ SetState (UDropped [] [])
         :: (if given (p_onDrop captured)
             then [CallOnDrop [] [] evt] else []).
Proof.
  cbv zeta. run_handler. rewrite Hstop.
  unfold dropLists, classify, singleModeCheck. cbn.
  rewrite andb_false_r. cbn.
  destruct (given (p_onDrop captured)); cbn;
    rewrite <- ?app_assoc; repeat split.
Qed.

Lemma onDrop_then_empty_witness :
  @isPropagationStopped (sampleUtils false) (dragEvt 0) = false
  /\ trace (exec (@onDrop_then (sampleUtils false) callbackProps
                               (dragEvt 0) [])
                 (initialWorld callbackProps))
     = [SetState (UDropped [] []); CallOnDrop [] [] (dragEvt 0)].
Proof.
  split; [reflexivity|].
  pose proof (@onDrop_then_empty (sampleUtils false) callbackProps
                (dragEvt 0) (initialWorld callbackProps) eq_refl) as H.
  cbv zeta in H. destruct H as (_ & _ & H). exact H.
Defined.

(** ** Keyboard, focus and the file dialog *)

(** X6.  [onKeyDown] ignores a key press whose target is not the root
    node (or that arrives while no root is attached): not even the
    user's [onKeyDown] is called.  On the root it calls the user's
    [onKeyDown] when given and then, iff the default was not prevented
    and the key is space (32) or enter (13), prevents the default and
    calls [open] directly; no timer is used, on IE and Edge neither. *)
Theorem onKeyDown_spec {U : Utils} {D : Dom} (evt : Evt) (w : World) :
  let user := p_onKeyDown (propsRef w) in
  let evt1 := match user with Some f => f evt | None => evt end in
  let w1 :=
    match user with
    | Some _ => exec (emit (CallProp OnKeyDown evt)) w
    | None => w
    end in
  let onRoot :=
    match nodeRef w with
    | Some node => isEqualNode node (target evt)
    | None => false
    end in
  let opens :=
    negb (isDefaultPrevented evt1)
    && ((keyCode evt1 =? 32) || (keyCode evt1 =? 13)) in
  (onRoot = false -> onKeyDown evt w = (evt, w))
  /\ (onRoot = true -> opens = false -> onKeyDown evt w = (evt1, w1))
  /\ (onRoot = true -> opens = true ->
      onKeyDown evt w = (preventDefault evt1, exec open w1)).
Proof.
  intros user evt1 w1 onRoot opens.
  assert (Hcall : callProp OnKeyDown user evt w = (evt1, w1)).
  { subst evt1 w1. unfold callProp. by destruct user. }
  unfold onKeyDown, bind, getProps, getNodeRef. fold user.
  subst onRoot. destruct (nodeRef w) as [node|].
  - destruct (isEqualNode node (target evt)); cbn [negb].
    + rewrite Hcall. fold opens. repeat split; try discriminate.
      * by intros _ ->.
      * intros _ ->. cbv beta iota zeta delta [exec ret].
        by destruct (open w1) as [[] w2].
    + repeat split; discriminate.
  - repeat split; discriminate.
Qed.

(** X7.  [onFocus] and [onBlur] call the user's callback when given and
    then set [isFocused] to true, respectively false, unless the
    callback prevented the default; they touch nothing else.  So a focus
    followed by a blur leaves the dropzone unfocused, except when the
    user's [onBlur] prevents the default: then it stays focused. *)
Theorem onFocus_onBlur_spec {U : Utils} (evt : Evt) (w : World) :
  let after (c : EvtProp) (user : option UserFn) :=
    match user with
    | Some _ => exec (emit (CallProp c evt)) w
    | None => w
    end in
  let left (user : option UserFn) :=
    match user with Some f => f evt | None => evt end in
  let focusUser := p_onFocus (propsRef w) in
  let blurUser := p_onBlur (propsRef w) in
  onFocus evt w
  = (left focusUser,
     if isDefaultPrevented (left focusUser) then after OnFocus focusUser
     else exec (setState (UFocused true)) (after OnFocus focusUser))
  /\ onBlur evt w
     = (left blurUser,
        if isDefaultPrevented (left blurUser) then after OnBlur blurUser
        else exec (setState (UFocused false)) (after OnBlur blurUser))
  /\ (forall evt2,
        let w' := exec (onBlur evt2) (exec (onFocus evt) w) in
        let evt2' :=
          match blurUser with Some f => f evt2 | None => evt2 end in
        (isDefaultPrevented evt2' = false -> isFocused (state w') = false)
        /\ (isDefaultPrevented evt2' = true ->
            isFocused (state w')
            = isFocused (state (exec (onFocus evt) w)))
        /\ draggedFiles (state w') = draggedFiles (state w)
        /\ acceptedFiles (state w') = acceptedFiles (state w)
        /\ rejectedFiles (state w') = rejectedFiles (state w)
        /\ isDragActive (state w') = isDragActive (state w)
        /\ dragTargetsRef w' = dragTargetsRef w
        /\ isFileDialogActiveRef w' = isFileDialogActiveRef w
        /\ inputRef w' = inputRef w).
Proof.
  intros after left focusUser blurUser. split; [|split].
  - subst after left. run_handler. fold focusUser.
    destruct focusUser; cbn;
      destruct (isDefaultPrevented _); reflexivity.
  - subst after left. run_handler. fold blurUser.
    destruct blurUser; cbn;
      destruct (isDefaultPrevented _); reflexivity.
  - intros evt2. subst focusUser blurUser.
    destruct (p_onFocus (propsRef w)) as [f|] eqn:Ef;
      destruct (p_onBlur (propsRef w)) as [b|] eqn:Eb.
    all: run_handler; rewrite ?Ef; cbn.
    all: destruct (isDefaultPrevented _) eqn:Hf in |- *; cbn.
    all: rewrite ?Eb; cbn.
    all: destruct (isDefaultPrevented _) eqn:Hb in |- *; cbn.
    all: rewrite ?Eb; cbn; rewrite ?Hf, ?Hb; cbn.
    all: repeat split; intros; congruence.
Qed.

(** X8.  [onFileDialogCancel], the listener of the window's focus event,
    does nothing unless the file dialog is marked active; then it only
    starts a timer of 300 ms.  When the timer fires and the mounted input
    holds no file, the dialog is marked closed and the user's
    [onFileDialogCancel] is called when given; with a file selected, or
    with no input mounted, nothing changes.  After a cancellation has
    been reported a further focus of the window starts no timer. *)
Theorem onFileDialogCancel_spec {U : Utils} (w : World) :
  (isFileDialogActiveRef w = false -> exec onFileDialogCancel w = w)
  /\ (isFileDialogActiveRef w = true ->
      exec onFileDialogCancel w
      = exec (emit (SetTimeout (FileDialogCancelTimer (propsRef w)) 300)) w)
  /\ (forall captured,
        inputRef w = None ->
        exec (onFileDialogCancel_timeout captured) w = w)
  /\ (forall captured el,
        inputRef w = Some el -> files el <> [] ->
        exec (onFileDialogCancel_timeout captured) w = w)
  /\ (forall captured el,
        inputRef w = Some el -> files el = [] ->
        let w' := exec (onFileDialogCancel_timeout captured) w in
        isFileDialogActiveRef w' = false
        /\ trace w'
           = trace w ++ (if given (p_onFileDialogCancel captured)
                         then [CallOnFileDialogCancel] else [])
        /\ state w' = state w /\ inputRef w' = inputRef w
        /\ dragTargetsRef w' = dragTargetsRef w
        /\ exec onFileDialogCancel w' = w').
Proof.
  split; [|split; [|split; [|split]]].
  - intros H. run_handler. by rewrite H.
  - intros H. destruct w. cbn in H. subst. reflexivity.
  - intros captured H. run_handler. by rewrite H.
  - intros captured el H Hfiles. run_handler. rewrite H.
    destruct (files el); [done|]. reflexivity.
  - intros captured el H Hfiles w'. subst w'. run_handler.
    rewrite H, Hfiles. change (Z.of_nat (length []) =? 0) with true.
    destruct (given (p_onFileDialogCancel captured)); cbn;
      rewrite ?app_nil_r; repeat split; exact H.
Qed.

(** ** Drag events that change no state *)

(** X9.  [onDragStart] and [onDragOver] never change the state or a ref.
    [onDragStart] persists the event, [onDragOver] also prevents the
    default and sets the drop effect to ["copy"] when the event has a
    [dataTransfer]; each calls the user's callback of the same name, with
    the event so prepared, iff the callback is given and the drag data
    has files. *)
Theorem onDragStart_onDragOver_spec {U : Utils} (evt : Evt) (w : World) :
  let run (c : EvtProp) (user : option UserFn) (evt' : Evt) :=
    match user with
    | Some f =>
        if isDragDataWithFiles evt'
        then (f evt', exec (emit (CallProp c evt')) w)
        else (evt', w)
    | None => (evt', w)
    end in
  onDragStart evt w
  = run OnDragStart (p_onDragStart (propsRef w)) (persist evt)
  /\ onDragOver evt w
     = run OnDragOver (p_onDragOver (propsRef w))
           (setDropEffectCopy (persist (preventDefault evt)))
  /\ (forall dt,
        dataTransfer evt = Some dt ->
        dataTransfer (setDropEffectCopy (persist (preventDefault evt)))
        = Some {| types := types dt; dropEffect := "copy" |})
  /\ (let unchanged (w' : World) :=
        state w' = state w /\ dragTargetsRef w' = dragTargetsRef w
        /\ isFileDialogActiveRef w' = isFileDialogActiveRef w
        /\ inputRef w' = inputRef w /\ nodeRef w' = nodeRef w
        /\ propsRef w' = propsRef w in
      unchanged (exec (onDragStart evt) w)
      /\ unchanged (exec (onDragOver evt) w)).
Proof.
  intros run. subst run. split; [|split; [|split]].
  - run_handler. destruct (p_onDragStart (propsRef w)); cbn; [|done].
    by destruct (isDragDataWithFiles _).
  - run_handler. destruct (p_onDragOver (propsRef w)); cbn; [|done].
    by destruct (isDragDataWithFiles _).
  - intros dt H. unfold setDropEffectCopy. cbn. by rewrite H.
  - cbv zeta. split; run_handler.
    + destruct (p_onDragStart (propsRef w)); cbn; [|done].
      by destruct (isDragDataWithFiles _).
    + destruct (p_onDragOver (propsRef w)); cbn; [|done].
      by destruct (isDragDataWithFiles _).
Qed.

(** X10.  A drag that enters with data other than files is still
    counted: its target joins the drag-target list when it is not there
    yet.  But no promise is made and the user's [onDragEnter] is not
    called, so this event never makes the dropzone active. *)
Theorem onDragEnter_without_files {U : Utils} (evt : Evt) (w : World)
    (Hnone : isDragDataWithFiles (persist (preventDefault evt)) = false) :
  let w' := exec (onDragEnter evt) w in
  eval (onDragEnter evt) w = persist (preventDefault evt)
  /\ dragTargetsRef w'
     = (if indexOf (dragTargetsRef w) (target evt) =? -1
        then dragTargetsRef w ++ [target evt]
        else dragTargetsRef w)
  /\ state w' = state w
  /\ trace w' = trace w.
Proof.
  cbv zeta. run_handler. rewrite Hnone.
  by destruct (indexOf (dragTargetsRef w) (target evt) =? -1).
Qed.

Lemma onDragEnter_without_files_witness :
  @isDragDataWithFiles (sampleUtils false)
    (persist (preventDefault
                (mkEvt 3 (Some (mkDataTransfer ["text/plain"] "none"))
                       0 false false false))) = false
  /\ dragTargetsRef
       (exec (@onDragEnter (sampleUtils false)
                (mkEvt 3 (Some (mkDataTransfer ["text/plain"] "none"))
                       0 false false false))
             (mountedWorld noProps)) = [3%nat].
Proof.
  split; [reflexivity|].
  pose proof (@onDragEnter_without_files (sampleUtils false)
                (mkEvt 3 (Some (mkDataTransfer ["text/plain"] "none"))
                       0 false false false)
                (mountedWorld noProps) eq_refl) as H.
  cbv zeta in H. destruct H as (_ & H & _). exact H.
Defined.

(** ** Invariants of the controller *)

Lemma step_dragged_active {U : Utils} (D : Dom) (a : Action) (w : World) :
  (isDragActive (state w) = false -> draggedFiles (state w) = []) ->
  isDragActive (state (step D a w)) = false ->
  draggedFiles (state (step D a w)) = [].
Proof.
  intros Hw. destruct a; unfold step.
  all: run_handler; repeat (case_match; simplify_eq; cbn);
    first [exact Hw | reflexivity | discriminate].
Qed.

(** X11.  In every reachable state of the controller, files are reported
    as dragged only while the dropzone is active: when [isDragActive] is
    false, [draggedFiles] is empty.  So in the value the hook returns,
    [isDragAccept] and [isDragReject] are never true unless
    [isDragActive] is. *)
Theorem dragged_only_while_active {U : Utils} (w : World)
    (Hreach : reachable w) :
  (isDragActive (state w) = false -> draggedFiles (state w) = [])
  /\ (forall props,
        let dropzone := useDropzone props (state w) in
        (r_isDragAccept dropzone = true -> r_isDragActive dropzone = true)
        /\ (r_isDragReject dropzone = true ->
            r_isDragActive dropzone = true)).
Proof.
  assert (Hinv : isDragActive (state w) = false ->
                 draggedFiles (state w) = []).
  { induction Hreach as [props|D a w _ IH].
    - reflexivity.
    - by apply step_dragged_active. }
  split; [exact Hinv|].
  intros props. cbn.
  destruct (isDragActive (state w)); [done|].
  rewrite (Hinv eq_refl). cbn. split; discriminate.
Qed.

Lemma dragged_only_while_active_witness :
  isDragActive
    (state (@runActions (sampleUtils false) sampleDom
              [DragEnter (dragEvt 0); DragEnterResolved (dragEvt 0) [fileA];
               DragLeave (dragEvt 0)]
              (initialWorld noProps))) = false
  /\ draggedFiles
       (state (@runActions (sampleUtils false) sampleDom
                 [DragEnter (dragEvt 0);
                  DragEnterResolved (dragEvt 0) [fileA];
                  DragLeave (dragEvt 0)]
                 (initialWorld noProps))) = [].
Proof.
  split; [reflexivity|].
  apply (@dragged_only_while_active (sampleUtils false)).
  - unfold runActions. cbn [fold_left].
    do 3 apply reachable_step. apply reachable_init.
  - reflexivity.
Defined.

(** X12.  What each part of the world can be changed by.  The props and
    the node ref are changed by no handler, only by a render and by
    React attaching the node.  The accepted and the rejected files
    change only when the promise of a drop resolves, and [isFocused]
    only on a focus or a blur event. *)
Theorem step_frame {U : Utils} (D : Dom) (a : Action) (w : World) :
  ((forall props, a <> Render props) ->
   propsRef (step D a w) = propsRef w)
  /\ ((forall n, a <> AttachNode n) -> nodeRef (step D a w) = nodeRef w)
  /\ ((forall captured evt fileList,
          a <> DropResolved captured evt fileList) ->
      acceptedFiles (state (step D a w)) = acceptedFiles (state w)
      /\ rejectedFiles (state (step D a w)) = rejectedFiles (state w))
  /\ ((forall evt, a <> Focus evt) -> (forall evt, a <> Blur evt) ->
      isFocused (state (step D a w)) = isFocused (state w)).
Proof.
  split; [|split; [|split]].
  - intros Hne. destruct a; unfold step;
      try (by destruct (Hne props)).
    all: run_handler; repeat (case_match; simplify_eq; cbn); congruence.
  - intros Hne. destruct a; unfold step; try (by destruct (Hne n)).
    all: run_handler; repeat (case_match; simplify_eq; cbn); congruence.
  - intros Hne. destruct a; unfold step;
      try (by destruct (Hne captured evt fileList)).
    all: run_handler; repeat (case_match; simplify_eq; cbn);
      split; congruence.
  - intros Hf Hb. destruct a; unfold step;
      try (by destruct (Hf evt)); try (by destruct (Hb evt)).
    all: run_handler; repeat (case_match; simplify_eq; cbn); congruence.
Qed.

(** ** More on [getRootProps] *)

(** X13.  Every prop the caller hands to [getRootProps], other than
    [refKey] and the nine handlers, comes back unchanged, even when it
    has the name of a prop the hook sets itself. *)
Theorem getRootProps_passthrough {U : Utils} {R : Runtime}
    (current : Props) (args : gmap string Value) (k : string) (v : Value)
    (Hk : k ∉ "refKey" :: map fst rootHandlers)
    (Hv : args !! k = Some v) :
  getRootProps current args !! k = Some v.
Proof.
  unfold getRootProps. apply lookup_union_Some_l.
  rewrite restOf_lookup. by rewrite bool_decide_eq_false_2.
Qed.

Lemma getRootProps_passthrough_witness :
  @getRootProps (sampleUtils false) sampleRuntime disabledProps
                classNameArgs !! "className" = Some (VStr "zone").
Proof.
  apply (@getRootProps_passthrough (sampleUtils false) sampleRuntime
           disabledProps classNameArgs "className" (VStr "zone")).
  - apply (bool_decide_unpack _). vm_compute. exact I.
  - reflexivity.
Defined.

(** X14.  When the dropzone is not disabled, each of the nine handlers
    that [getRootProps] returns is the handler of the hook itself, or,
    when the caller passes a handler of that name, the composition of the
    caller's handler with the hook's; the caller's handler comes first.
    The node ref is returned under [refKey], by default under ["ref"]. *)
Theorem getRootProps_enabled_handlers {U : Utils} {R : Runtime}
    (current : Props) (args : gmap string Value)
    (Henabled : p_disabled current <> Some true) :
  let refKey :=
    computedKey (match prop args "refKey" with
                 | VUndefined => VStr "ref"
                 | v => v
                 end) in
  let result := getRootProps current args in
  (forall key m,
      In (key, m) rootHandlers -> key <> refKey ->
      result !! key
      = Some (if truthy (prop args key)
              then composeEventHandlers (prop args key) (VInst m)
              else VInst m))
  /\ (args !! refKey = None -> refKey <> "tabIndex" ->
      result !! refKey = Some (VRef NodeRef))
  /\ (args !! "refKey" = None -> refKey = "ref").
Proof.
  intros refKey result.
  assert (Hcompose : forall h, composeHandler current h = h).
  { intros h. unfold composeHandler.
    destruct (p_disabled current) as [[]|]; simpl; congruence. }
  split; [|split].
  - intros key m Hin Hne. subst result. unfold getRootProps.
    fold refKey. rewrite lookup_union_r.
    2:{ rewrite restOf_lookup. rewrite bool_decide_eq_true_2; [done|].
        right. apply list_elem_of_In, in_map_iff. by exists (key, m). }
    unfold rootHandler. rewrite !Hcompose.
    simpl in Hin.
    repeat (destruct Hin as [Hin|Hin];
            [injection Hin as <- <-; by simplify_map_eq|]).
    destruct Hin.
  - intros Hnone Htab. subst result. unfold getRootProps. fold refKey.
    rewrite lookup_union_r.
    2:{ rewrite restOf_lookup. case_bool_decide; done. }
    rewrite lookup_insert_ne by done. apply lookup_insert_eq.
  - intros Hnone. subst refKey. unfold prop. by rewrite Hnone.
Qed.

Lemma getRootProps_enabled_handlers_witness :
  p_disabled noProps <> Some true
  /\ @getRootProps (sampleUtils false) sampleRuntime noProps classNameArgs
       !! "onClick" = Some (VComposed (VFun 1) (VInst InstOnClick))
  /\ @getRootProps (sampleUtils false) sampleRuntime noProps classNameArgs
       !! "onDrop" = Some (VInst InstOnDrop).
Proof.
  split; [discriminate|].
  pose proof (@getRootProps_enabled_handlers (sampleUtils false)
                sampleRuntime noProps classNameArgs
                ltac:(discriminate)) as H.
  cbv zeta in H. destruct H as (H & _).
  split.
  - apply (H "onClick" InstOnClick); [simpl; tauto | discriminate].
  - apply (H "onDrop" InstOnDrop); [simpl; tauto | discriminate].
Defined.

(** ** [getInputProps] *)

Lemma inputRestOf_lookup (args : gmap string Value) (k : string) :
  inputRestOf args !! k
  = if bool_decide (k ∈ ["refKey"; "onChange"; "onClick"])
    then None else args !! k.
Proof.
  unfold inputRestOf.
  induction ["refKey"; "onChange"; "onClick"] as [|k' ks IH]; simpl.
  - reflexivity.
  - rewrite lookup_delete. destruct (decide (k' = k)) as [->|Hk].
    + rewrite bool_decide_eq_true_2; [done | by left].
    + rewrite IH. destruct (bool_decide (k ∈ ks)) eqn:Hin.
      * apply bool_decide_eq_true_1 in Hin.
        rewrite bool_decide_eq_true_2; [done | by right].
      * apply bool_decide_eq_false_1 in Hin.
        rewrite bool_decide_eq_false_2; [done|].
        intros Hin'. apply elem_of_cons in Hin' as [?|?]; congruence.
Qed.

(** X15.  The props of the hidden input.  Every prop of the caller other
    than [refKey], [onChange] and [onClick] comes back unchanged.  The
    result depends on three props of the dropzone only, [accept],
    [multiple] and [name]; in particular [disabled] is not consulted, and
    [onChange] is always the composition of the caller's [onChange] with
    the drop handler of the hook.  [multiple] is true only when the
    browser supports it and the dropzone allows it, and [name] is set
    only for a non-empty name. *)
Theorem getInputProps_spec {U : Utils} {R : Runtime}
    (supportMultiple : bool) (current : Props)
    (args : gmap string Value) :
  let refKey :=
    computedKey (match prop args "refKey" with
                 | VUndefined => VStr "ref"
                 | v => v
                 end) in
  let result := getInputProps supportMultiple current args in
  (forall k v,
      k ∉ ["refKey"; "onChange"; "onClick"] -> args !! k = Some v ->
      result !! k = Some (IValue v))
  /\ (forall other,
        p_accept other = p_accept current ->
        p_multiple other = p_multiple current ->
        p_name other = p_name current ->
        getInputProps supportMultiple other args = result)
  /\ (refKey <> "onChange" ->
      result !! "onChange"
      = Some (IValue (composeEventHandlers (prop args "onChange")
                                           (VInst InstOnDrop))))
  /\ (args !! "multiple" = None -> refKey <> "multiple" ->
      result !! "multiple"
      = Some (IValue (VBool (supportMultiple
                             && withDefault true (p_multiple current)))))
  /\ (forall s, p_name current = Some s -> s <> "" ->
                args !! "name" = None ->
                result !! "name" = Some (IValue (VStr s)))
  /\ (p_name current = None \/ p_name current = Some "" ->
      args !! "name" = None -> refKey <> "name" ->
      result !! "name" = None).
Proof.
  intros refKey result.
  assert (Hrest : forall k,
             args !! k = None -> (IValue <$> inputRestOf args) !! k = None).
  { intros k Hk. rewrite lookup_fmap, inputRestOf_lookup.
    case_bool_decide; [done | by rewrite Hk]. }
  assert (Hgone : forall k,
             k ∈ ["refKey"; "onChange"; "onClick"] ->
             (IValue <$> inputRestOf args) !! k = None).
  { intros k Hk. rewrite lookup_fmap, inputRestOf_lookup.
    by rewrite bool_decide_eq_true_2. }
  split; [|split; [|split; [|split; [|split]]]].
  - intros k v Hk Hv. subst result. unfold getInputProps.
    apply lookup_union_Some_l.
    rewrite lookup_fmap, inputRestOf_lookup.
    rewrite bool_decide_eq_false_2 by done. by rewrite Hv.
  - intros other Ha Hm Hn. subst result. unfold getInputProps.
    by rewrite Ha, Hm, Hn.
  - intros Hne. subst result. unfold getInputProps. fold refKey.
    rewrite lookup_union_r by (apply Hgone; set_solver).
    destruct (p_name current) as [s|];
      [destruct (negb (Z.of_nat (String.length s) =? 0))|];
      by simplify_map_eq.
  - intros Hnone Hne. subst result. unfold getInputProps. fold refKey.
    rewrite lookup_union_r by (by apply Hrest).
    destruct (p_name current) as [s|];
      [destruct (negb (Z.of_nat (String.length s) =? 0))|];
      by simplify_map_eq.
  - intros s Hs Hne Hnone. subst result. unfold getInputProps.
    fold refKey. rewrite lookup_union_r by (by apply Hrest).
    rewrite Hs. destruct s as [|c s]; [done|]. cbn.
    apply lookup_insert_eq.
  - intros Hname Hnone Hne. subst result. unfold getInputProps.
    fold refKey. rewrite lookup_union_r by (by apply Hrest).
    destruct Hname as [-> | ->]; cbn; by simplify_map_eq.
Qed.

(** A disabled single-mode dropzone named ["upload"], in a browser that
    knows [multiple]: the input is named, takes one file, and still
    carries the drop handler. *)
Example getInputProps_disabled :
  let result :=
    @getInputProps (sampleUtils false) sampleRuntime true cancelProps ∅ in
  result !! "name" = Some (IValue (VStr "upload"))
  /\ result !! "multiple" = Some (IValue (VBool false))
  /\ result !! "type" = Some (IValue (VStr "file"))
  /\ result !! "accept" = Some (IAccept (AcceptString "text/plain"))
  /\ result !! "style" = Some (IStyle [("display", "none")])
  /\ result !! "onChange"
     = Some (IValue (VComposed VUndefined (VInst InstOnDrop)))
  /\ result !! "ref" = Some (IValue (VRef InputRef))
  /\ size result = 10%nat.
Proof. repeat split; vm_compute; reflexivity. Qed.

(** ** Mounting and unmounting *)

Lemma removeEventListener_elem (l l' : Listener) (reg : list Listener) :
  l' ∈ removeEventListener l reg <-> l' ∈ reg /\ l' <> l.
Proof.
  unfold removeEventListener.
  rewrite !list_elem_of_In, List.filter_In, negb_true_iff.
  rewrite bool_decide_eq_false. tauto.
Qed.

Lemma addEventListener_elem (l l' : Listener) (reg : list Listener) :
  l' ∈ addEventListener l reg <-> l' ∈ reg \/ l' = l.
Proof.
  unfold addEventListener. case_bool_decide as Hin.
  - split; [tauto|]. intros [?| ->]; done.
  - rewrite elem_of_app, list_elem_of_singleton. tauto.
Qed.

Lemma effectMount_elem (props : Props) (l : Listener)
    (reg : list Listener) :
  l ∈ effectMount props reg <-> l ∈ reg \/ l ∈ mountListeners props.
Proof.
  unfold effectMount. revert reg.
  induction (mountListeners props) as [|l0 ls IH]; intros reg; simpl.
  - rewrite elem_of_nil. tauto.
  - rewrite IH, addEventListener_elem, elem_of_cons. tauto.
Qed.

Lemma effectCleanup_elem (props : Props) (l : Listener)
    (reg : list Listener) :
  l ∈ effectCleanup props reg <-> l ∈ reg /\ l ∉ mountListeners props.
Proof.
  unfold effectCleanup, mountListeners.
  destruct (withDefault true (p_preventDropOnDocument props)); simpl.
  - rewrite !removeEventListener_elem, !not_elem_of_cons, elem_of_nil.
    tauto.
  - rewrite !removeEventListener_elem, !not_elem_of_cons, elem_of_nil.
    tauto.
Qed.

(** X16.  The mount effect registers every listener of the hook, and
    keeps what was registered before.  Its cleanup, which decides on the
    same [preventDropOnDocument] as the mount did, removes exactly the
    listeners the mount registers: after a mount and its cleanup none of
    them is registered any more, not even one that was registered before
    the mount, and every other listener still is. *)
Theorem effect_mount_cleanup (props : Props) (registered : list Listener) :
  (forall l,
      l ∈ effectMount props registered
      <-> l ∈ registered \/ l ∈ mountListeners props)
  /\ (forall l,
        l ∈ effectCleanup props (effectMount props registered)
        <-> l ∈ registered /\ l ∉ mountListeners props)
  /\ (forall l,
        l ∈ mountListeners props ->
        l ∉ effectCleanup props (effectMount props registered))
  /\ (mkListener OnWindow "focus" (OfInst InstOnFileDialogCancel)
        ∈ mountListeners props)
  /\ (mkListener OnDocument "dragover" UtilsOnDocumentDragOver
        ∈ mountListeners props
      <-> p_preventDropOnDocument props <> Some false)
  /\ (mkListener OnDocument "drop" (OfInst InstOnDocumentDrop)
        ∈ mountListeners props
      <-> p_preventDropOnDocument props <> Some false).
Proof.
  split; [|split; [|split; [|split; [|split]]]].
  - intros l. apply effectMount_elem.
  - intros l. rewrite effectCleanup_elem, effectMount_elem. tauto.
  - intros l Hl. rewrite effectCleanup_elem. tauto.
  - unfold mountListeners. rewrite elem_of_app, list_elem_of_singleton.
    by right.
  - unfold mountListeners.
    destruct (p_preventDropOnDocument props) as [[]|]; simpl.
    + split; [congruence|]. intros _. by left.
    + split; [|congruence]. rewrite elem_of_cons, elem_of_nil.
      intros [H|[]]. discriminate H.
    + split; [congruence|]. intros _. by left.
  - unfold mountListeners.
    destruct (p_preventDropOnDocument props) as [[]|]; simpl.
    + split; [congruence|]. intros _. right. by left.
    + split; [|congruence]. rewrite elem_of_cons, elem_of_nil.
      intros [H|[]]. discriminate H.
    + split; [congruence|]. intros _. right. by left.
Qed.

(** ** Entering and leaving *)

Lemma onDragLeave_cleared {U : Utils} {D : Dom} (evt : Evt) (w : World) :
  dragTargetsRef (exec (onDragLeave evt) w) = [] ->
  state (exec (onDragLeave evt) w) = runUpdater UDragCleared (state w).
Proof.
  rewrite onDragLeave_targets. intros Hkept. run_handler.
  change (List.filter (keepTarget (nodeRef w)
                                  (persist (preventDefault evt)))
                      (dragTargetsRef w))
    with (List.filter
            (fun el => negb (Nat.eqb el (target evt))
                       && nodeContains (nodeRef w) el)
            (dragTargetsRef w)).
  rewrite Hkept. change (0 <? Z.of_nat (length [])) with false. cbn.
  destruct (p_onDragLeave (propsRef w)); cbn;
    [destruct (isDragDataWithFiles _); cbn|]; reflexivity.
Qed.

(** X17.  A drag that enters a target and then leaves it does not stay
    counted: the drag-target list after the two events is the one a
    leave alone would give.  Starting from an empty list the two events
    end with an empty list and an inactive dropzone without dragged
    files. *)
Theorem enter_then_leave {U : Utils} {D : Dom} (enter leave : Evt)
    (w : World) (Htarget : target leave = target enter) :
  let w' := exec (onDragLeave leave) (exec (onDragEnter enter) w) in
  dragTargetsRef w' = dragTargetsRef (exec (onDragLeave leave) w)
  /\ ~ In (target enter) (dragTargetsRef w')
  /\ (dragTargetsRef w = [] ->
      dragTargetsRef w' = []
      /\ isDragActive (state w') = false
      /\ draggedFiles (state w') = []).
Proof.
  intros w'.
  assert (Hnode : nodeRef (exec (onDragEnter enter) w) = nodeRef w).
  { run_handler. repeat (case_match; simplify_eq; cbn); reflexivity. }
  assert (Hts : dragTargetsRef w'
                = dragTargetsRef (exec (onDragLeave leave) w)).
  { subst w'. rewrite !onDragLeave_targets, onDragEnter_targets, Hnode.
    destruct (indexOf (dragTargetsRef w) (target enter) =? -1);
      [|reflexivity].
    rewrite List.filter_app. simpl. rewrite Htarget, Nat.eqb_refl. simpl.
    apply app_nil_r. }
  split; [exact Hts|]. split.
  - rewrite Hts, onDragLeave_targets, List.filter_In, Htarget.
    rewrite Nat.eqb_refl. simpl. intros [_ H]. discriminate H.
  - intros Hnil.
    assert (Hempty : dragTargetsRef w' = []).
    { rewrite Hts, onDragLeave_targets, Hnil. reflexivity. }
    split; [exact Hempty|].
    subst w'. rewrite (onDragLeave_cleared _ _ Hempty). by split.
Qed.

Lemma enter_then_leave_witness :
  target (dragEvt 3) = target (dragEvt 3)
  /\ dragTargetsRef
       (exec (@onDragLeave (sampleUtils false) sampleDom (dragEvt 3))
             (exec (@onDragEnter (sampleUtils false) (dragEvt 3))
                   (mountedWorld noProps))) = [].
Proof.
  split; [reflexivity|].
  pose proof (@enter_then_leave (sampleUtils false) sampleDom
                (dragEvt 3) (dragEvt 3) (mountedWorld noProps) eq_refl)
    as H.
  cbv zeta in H. destruct H as (_ & _ & H).
  apply H. reflexivity.
Defined.

(** ** Opening and dismissing the file dialog *)

(** X18.  [open] always marks the file dialog active, so the next focus
    of the window starts the cancel timer.  With the input mounted and
    no file chosen, the timer marks the dialog closed and reports the
    cancellation once: a further focus of the window does nothing.  With
    no input mounted the timer changes nothing and the dialog stays
    marked active.  After a drop, which is also how a chosen file
    arrives, a focus of the window starts no timer. *)
Theorem open_then_cancel {U : Utils} (w : World) :
  let timer := SetTimeout (FileDialogCancelTimer (propsRef w)) 300 in
  let w1 := exec open w in
  let w2 := exec onFileDialogCancel w1 in
  let w3 := exec (onFileDialogCancel_timeout (propsRef w)) w2 in
  isFileDialogActiveRef w1 = true
  /\ w2 = exec (emit timer) w1
  /\ (forall el,
        inputRef w = Some el -> files el = [] ->
        isFileDialogActiveRef w3 = false
        /\ trace w3
           = trace w ++ [InputClick; timer]
               ++ (if given (p_onFileDialogCancel (propsRef w))
                   then [CallOnFileDialogCancel] else [])
        /\ exec onFileDialogCancel w3 = w3)
  /\ (inputRef w = None ->
      w3 = w2 /\ isFileDialogActiveRef w3 = true
      /\ trace w3 = trace w ++ [timer])
  /\ (forall evt,
        exec onFileDialogCancel (exec (onDrop evt) w1)
        = exec (onDrop evt) w1).
Proof.
  cbv zeta. split; [|split; [|split; [|split]]].
  - run_handler. by destruct (inputRef w).
  - run_handler. by destruct (inputRef w).
  - intros el Hel Hfiles. run_handler. rewrite Hel. cbn. rewrite Hfiles.
    change (Z.of_nat (length []) =? 0) with true. cbn.
    destruct (given (p_onFileDialogCancel (propsRef w))); cbn;
      rewrite <- ?app_assoc, ?app_nil_r; repeat split.
  - intros Hnone. run_handler. rewrite Hnone. cbn. rewrite ?Hnone.
    repeat split.
  - intros evt. run_handler.
    destruct (inputRef w); cbn;
      by destruct (isDragDataWithFiles _).
Qed.

(** ** The two drag flags *)

(** X19.  While several files may be dropped ([multiple] is true or not
    given), or at most one file is dragged, the two flags of the returned
    value exclude each other: with files dragged exactly one of
    [isDragAccept] and [isDragReject] is true, and with nothing dragged
    both are false. *)
Theorem drag_flags_exclusive {U : Utils} (props : Props) (st : State)
    (Hallowed : withDefault true (p_multiple props) = true
                \/ (length (draggedFiles st) <= 1)%nat) :
  let dropzone := useDropzone props st in
  (draggedFiles st <> [] ->
   r_isDragReject dropzone = negb (r_isDragAccept dropzone))
  /\ (draggedFiles st = [] ->
      r_isDragAccept dropzone = false /\ r_isDragReject dropzone = false).
Proof.
  cbn. split.
  - intros Hne. apply Z_of_length_pos in Hne. rewrite Hne. cbn.
    assert (Hm : withDefault true (p_multiple props)
                 || (Z.of_nat (length (draggedFiles st)) <=? 1) = true).
    { destruct Hallowed as [-> | Hlen]; [done|].
      apply orb_true_iff. right. apply Z.leb_le. lia. }
    rewrite Hm. cbn. by rewrite orb_false_r.
  - intros ->. by cbn.
Qed.

Lemma drag_flags_exclusive_witness :
  r_isDragReject (@useDropzone (sampleUtils false) noProps draggingTwo)
  = negb (r_isDragAccept (@useDropzone (sampleUtils false) noProps
                                       draggingTwo)).
Proof.
  pose proof (@drag_flags_exclusive (sampleUtils false) noProps draggingTwo
                (or_introl eq_refl)) as H.
  cbv zeta in H. destruct H as (H & _). apply H. discriminate.
Defined.
